(** * AWS profile / region resolution of the DevWizard scripts

    A shallow embedding of the profile listing, active-selection
    resolution, region lookup, profile switch and profile creation code of
    [aws_tray_manager.py] and [aws_profile_manager.py], together with the
    properties their specification states about them.

    Layout: the part of Python's [configparser] the scripts call, the
    settings file, the process and file-system state, the two scripts,
    sample states, then the lemmas and theorems. *)

From Stdlib Require Import Ascii.
From stdpp Require Import gmap strings list fin_maps.

Local Open Scope string_scope.

(** ** Python's configparser, as far as the scripts use it *)

Module configparser.

(** Exceptions the calls made by the scripts can raise: the parser's
    own, and the one [os.makedirs] raises when it is given no directory
    to create. *)
Inductive exn : Type :=
| NoSectionError (section : string)
| NoOptionError (option section : string)
| DuplicateSectionError (section : string)
| ValueError (msg : string)
| FileNotFoundError (filename : string).

Inductive result (A : Type) : Type :=
| Ok (a : A)
| Raise (e : exn).
Arguments Ok {A} a.
Arguments Raise {A} e.

Definition map {A B : Type} (f : A → B) (r : result A) : result B :=
  match r with
  | Ok a => Ok (f a)
  | Raise e => Raise e
  end.

(** Sequencing: an exception ends the computation. *)
Definition bind {A B : Type} (r : result A) (k : A → result B) : result B :=
  match r with
  | Ok a => k a
  | Raise e => Raise e
  end.

(** The state of a parser object: the [DEFAULT] section's options and the
    ordinary sections in file order. Option names are held the way
    [optionxform] leaves them (lower case); the names the scripts pass
    ([region], [aws_access_key_id], [aws_secret_access_key]) are lower
    case already. Values are held as [get] hands them out: the scripts'
    stores carry key ids, secrets and region names, none of which uses
    the [%] interpolation syntax. *)
Record ConfigParser : Type := {
  _defaults : gmap string string;
  _sections : list (string * gmap string string)
}.

(** [configparser.ConfigParser()] *)
Definition empty : ConfigParser :=
  {| _defaults := ∅; _sections := [] |}.

Definition default_section : string := "DEFAULT".

(** [self._sections[section]] *)
Fixpoint lookup_section (l : list (string * gmap string string)) (section : string)
  : option (gmap string string) :=
  match l with
  | [] => None
  | (name, opts) :: rest =>
      if decide (name = section) then Some opts else lookup_section rest section
  end.

(** [sections()]: the section names, [DEFAULT] left out. *)
Definition sections (cp : ConfigParser) : list string :=
  (_sections cp).*1.

(** [has_section(section)]: [section in self._sections]. *)
Definition has_section (cp : ConfigParser) (section : string) : bool :=
  bool_decide (is_Some (lookup_section (_sections cp) section)).

(** [has_option(section, option)] *)
Definition has_option (cp : ConfigParser) (section option : string) : bool :=
  if bool_decide (section = "" ∨ section = default_section) then
    bool_decide (is_Some (_defaults cp !! option))
  else
    match lookup_section (_sections cp) section with
    | None => false
    | Some opts =>
        bool_decide (is_Some (opts !! option))
        || bool_decide (is_Some (_defaults cp !! option))
    end.

(** [_unify_values(section, vars=None)]: the section's options chained
    over the defaults; [NoSectionError] unless the section exists or is
    the default section. *)
Definition unify_values (cp : ConfigParser) (section : string)
  : result (gmap string string) :=
  match lookup_section (_sections cp) section with
  | Some opts => Ok (opts ∪ _defaults cp)
  | None =>
      if decide (section = default_section) then Ok (_defaults cp)
      else Raise (NoSectionError section)
  end.

(** [get(section, option)] without a fallback. *)
Definition get (cp : ConfigParser) (section option : string) : result string :=
  match unify_values cp section with
  | Raise e => Raise e
  | Ok d =>
      match d !! option with
      | Some value => Ok value
      | None => Raise (NoOptionError option section)
      end
  end.

(** [get(section, option, fallback=fallback)] *)
Definition get_fallback (cp : ConfigParser) (section option fallback : string)
  : string :=
  match unify_values cp section with
  | Raise _ => fallback
  | Ok d => default fallback (d !! option)
  end.

(** [add_section(section)] *)
Definition add_section (cp : ConfigParser) (section : string)
  : result ConfigParser :=
  if decide (section = default_section) then
    Raise (ValueError "Invalid section name: 'DEFAULT'")
  else if has_section cp section then
    Raise (DuplicateSectionError section)
  else
    Ok {| _defaults := _defaults cp;
          _sections := _sections cp ++ [(section, ∅)] |}.

Fixpoint set_in (l : list (string * gmap string string))
    (section option value : string) : list (string * gmap string string) :=
  match l with
  | [] => []
  | (name, opts) :: rest =>
      if decide (name = section) then (name, <[option := value]> opts) :: rest
      else (name, opts) :: set_in rest section option value
  end.

(** [set(section, option, value)] *)
Definition set (cp : ConfigParser) (section option value : string)
  : result ConfigParser :=
  if bool_decide (section = "" ∨ section = default_section) then
    Ok {| _defaults := <[option := value]> (_defaults cp);
          _sections := _sections cp |}
  else if has_section cp section then
    Ok {| _defaults := _defaults cp;
          _sections := set_in (_sections cp) section option value |}
  else
    Raise (NoSectionError section).

End configparser.

Import configparser.

#[global] Instance result_bind : MBind result := λ A B k r, configparser.bind r k.

(** ** Settings, process environment and files *)

(** One entry of the [favorites] list of [config.json]; the scripts read
    [fav["name"]] and [fav.get("color", ...)], [fav.get("region", ...)]. *)
Record Favorite : Type := {
  fav_name : string;
  fav_color : option string;
  fav_region : option string
}.

(** The [aws_profiles] object of [config.json]; a key that is absent is
    [None] (an absent [favorites] list reads as the empty list, which is
    what [aws_config.get("favorites", [])] makes of it). *)
Record AwsConfig : Type := {
  credentials_path : option string;
  config_path : option string;
  favorites : list Favorite;
  default_region : option string
}.

(** The empty dictionary [{}], read as an [aws_profiles] object. *)
Definition no_aws_config : AwsConfig :=
  {| credentials_path := None; config_path := None;
     favorites := []; default_region := None |}.

(** [config.json] as far as these scripts read it: its [aws_profiles]
    key, if it has one. *)
Record Config : Type := {
  aws_profiles : option AwsConfig
}.

(** The empty dictionary [{}], read as the whole settings object. *)
Definition no_config : Config := {| aws_profiles := None |}.

(** What the scripts read and write: [os.environ], the content of
    [config.json] ([None] when the file cannot be loaded), the INI files
    by path, each held as the parser state that reading it yields and
    writing it stores, and the lines of the helper script
    [set_aws_profile.bat] that sits next to the scripts. *)
Record World : Type := {
  environ : gmap string string;
  config_json : option Config;
  files : gmap string ConfigParser;
  batch : option (list string)
}.

Definition set_environ (w : World) (k v : string) : World :=
  {| environ := <[k := v]> (environ w);
     config_json := config_json w;
     files := files w;
     batch := batch w |}.

Definition write_file (w : World) (path : string) (cp : ConfigParser) : World :=
  {| environ := environ w;
     config_json := config_json w;
     files := <[path := cp]> (files w);
     batch := batch w |}.

Definition write_batch (w : World) (lines : list string) : World :=
  {| environ := environ w;
     config_json := config_json w;
     files := files w;
     batch := Some lines |}.

Section Scripts.

(** [os.path.expandvars], a service of the platform: it rewrites a path
    template by reading the process environment. *)
Variable expandvars : gmap string string → string → string.

(** [os.path.dirname], another service of the platform: the directory
    part of a path, empty when the path has none. *)
Variable dirname : string → string.

(** [os.makedirs(name, exist_ok=True)]: with the empty name there is no
    directory to create and the call raises; any other directory is taken
    to be there or creatable. *)
Definition makedirs (name : string) : result unit :=
  if decide (name = "") then Raise (FileNotFoundError name) else Ok tt.

(** [load_config()]: the settings, or [{}] when they cannot be loaded. *)
Definition load_config (w : World) : Config :=
  default no_config (config_json w).

(** [config = load_config()], then [config.get("aws_profiles", {})] *)
Definition aws_config_of (w : World) : AwsConfig :=
  default no_aws_config (aws_profiles (load_config w)).

(** [expand_path(path)] *)
Definition expand_path (w : World) (path : string) : string :=
  expandvars (environ w) path.

(** [os.path.exists(path)] *)
Definition exists_path (w : World) (path : string) : bool :=
  bool_decide (is_Some (files w !! path)).

(** [cp = configparser.ConfigParser(); cp.read(path)] *)
Definition read (w : World) (path : string) : ConfigParser :=
  default configparser.empty (files w !! path).

(** [cp = configparser.ConfigParser()], then
    [if os.path.exists(path): cp.read(path)] *)
Definition read_if_exists (w : World) (path : string) : ConfigParser :=
  if exists_path w path then read w path else configparser.empty.

(** [expand_path(aws_config.get("credentials_path", ...))] *)
Definition credentials_path_of (w : World) : string :=
  expand_path w
    (default "%USERPROFILE%\.aws\credentials" (credentials_path (aws_config_of w))).

(** [expand_path(aws_config.get("config_path", ...))] *)
Definition config_path_of (w : World) : string :=
  expand_path w
    (default "%USERPROFILE%\.aws\config" (config_path (aws_config_of w))).

(** [aws_config.get("default_region", "us-east-1")] *)
Definition default_region_of (w : World) : string :=
  default "us-east-1" (default_region (aws_config_of w)).

(** *** The blocks the two scripts share *)

(** "Get current default profile": [aws_tray_manager.py] lines 60-63,
    [aws_profile_manager.py] lines 62-65. *)
Definition current_profile (env : gmap string string) : string :=
  default "default" (env !! "AWS_PROFILE").

(** "Get current region": [aws_tray_manager.py] lines 65-72,
    [aws_profile_manager.py] lines 67-74. *)
Definition current_region (env : gmap string string)
    (config_parser : ConfigParser) (default_region : string) : result string :=
  match env !! "AWS_REGION" with
  | Some r => Ok r
  | None =>
      match env !! "AWS_DEFAULT_REGION" with
      | Some r => Ok r
      | None =>
          let section := "profile " +:+ current_profile env in
          if has_section config_parser section
             && has_option config_parser section "region"
          then get config_parser section "region"
          else Ok default_region
      end
  end.

(** "Get all profiles": [aws_tray_manager.py] lines 74-77,
    [aws_profile_manager.py] lines 80-83. *)
Definition profiles (credentials : ConfigParser) : list string :=
  let profiles := sections credentials in
  if negb (bool_decide ("default" ∈ profiles)) && has_section credentials "default"
  then "default" :: profiles
  else profiles.

(** "Get region for this profile": [aws_tray_manager.py] lines 93-98,
    [aws_profile_manager.py] lines 177-182. *)
Definition section_name (profile_name : string) : string :=
  if decide (profile_name = "default") then "default"
  else "profile " +:+ profile_name.

Definition selected_region (config_parser : ConfigParser)
    (default_region profile_name : string) : string :=
  if has_section config_parser (section_name profile_name) then
    get_fallback config_parser (section_name profile_name) "region" default_region
  else default_region.

(** *** aws_tray_manager.py *)

(** [get_aws_profiles()] *)
Definition get_aws_profiles (w : World)
  : result (list string * string * string * list Favorite) :=
  let aws_config := aws_config_of w in
  let credentials_path := credentials_path_of w in
  let config_path := config_path_of w in
  let favorites := favorites aws_config in
  let default_region := default_region_of w in
  if negb (exists_path w credentials_path) then
    Ok ([], "default", default_region, favorites)
  else
    let credentials := read w credentials_path in
    let config_parser := read_if_exists w config_path in
    let current_profile := current_profile (environ w) in
    current_region ← current_region (environ w) config_parser default_region;
    Ok (profiles credentials, current_profile, current_region, favorites).

(** The lines [switch_profile] writes to [set_aws_profile.bat]. *)
Definition tray_batch_lines (profile_name selected_region : string) : list string :=
  [ "@echo off";
    "echo Setting AWS profile to " +:+ profile_name +:+ "...";
    "setx AWS_PROFILE " +:+ profile_name;
    "setx AWS_DEFAULT_REGION " +:+ selected_region;
    "echo Profile set to " +:+ profile_name +:+ " (" +:+ selected_region +:+ ")" ].

(** [switch_profile(profile_name)]: the region it returns and the state
    it leaves. Launching the helper script is left to the platform. *)
Definition switch_profile (w : World) (profile_name : string) : string * World :=
  let config_path := config_path_of w in
  let default_region := default_region_of w in
  let config_parser := read_if_exists w config_path in
  let selected_region := selected_region config_parser default_region profile_name in
  let w := set_environ w "AWS_PROFILE" profile_name in
  let w := set_environ w "AWS_DEFAULT_REGION" selected_region in
  let w := write_batch w (tray_batch_lines profile_name selected_region) in
  (selected_region, w).

(** *** aws_profile_manager.py *)

(** What the user types at the prompts of [manage_aws_profiles], each
    answer after the [strip()] / [lower()] the script applies to it:
    the menu choice ([q], [a], a number, anything else; the options the
    menu prints but does not implement fall under [Other]) and, for [a],
    the answers to the prompts that follow. *)
Inductive Choice : Type :=
| Quit
| Add (new_profile access_key secret_key region : string) (switch : bool)
| Number (n : nat)
| Other.

Record Answers : Type := {
  create_new : bool;
  choice : Choice
}.

(** One line of the numbered profile list. *)
Record ProfileLine : Type := {
  line_number : nat;
  line_profile : string;
  line_favorite : bool;
  line_active : bool
}.

(** What a run reports to the user. *)
Inductive Action : Type :=
| QuitMenu
| EmptyName
| AlreadyExists (new_profile : string)
| Added (new_profile : string) (switched : option string)
| Switched (selected_profile selected_region : string)
| InvalidNumber
| InvalidOption.

Inductive Outcome : Type :=
| CredentialsNotFound (credentials_path : string) (created : bool)
| Menu (current_profile current_region : string)
       (listing : list ProfileLine) (action : Action).

(** The file written when the user asks for a new credentials file. *)
Definition new_credentials_file : ConfigParser :=
  {| _defaults := ∅;
     _sections :=
       [("default",
         <["aws_secret_access_key" := "YOUR_SECRET_KEY"]>
           (<["aws_access_key_id" := "YOUR_ACCESS_KEY"]> ∅))] |}.

(** "Display profiles with favorites highlighted", lines 85-99. *)
Definition profile_lines (favorites : list Favorite)
    (current_profile : string) (profiles : list string) : list ProfileLine :=
  let favorite_names := fav_name <$> favorites in
  imap (λ i profile,
          {| line_number := i + 1;
             line_profile := profile;
             line_favorite := bool_decide (profile ∈ favorite_names);
             line_active := bool_decide (profile = current_profile) |})
       profiles.

(** The lines the menu script writes to [set_aws_profile.bat]. *)
Definition menu_batch_lines (profile region : string) : list string :=
  [ "@echo off";
    "echo Setting AWS profile to " +:+ profile +:+ "...";
    "setx AWS_PROFILE " +:+ profile;
    "setx AWS_DEFAULT_REGION " +:+ region;
    "echo Profile set to " +:+ profile +:+ " (" +:+ region +:+ ")";
    "pause" ].

(** "Set environment variables for current session" and "Create a batch
    file to set environment variables", lines 153-168 and 184-199. *)
Definition apply_switch (w : World) (profile region : string) : World :=
  let w := set_environ w "AWS_PROFILE" profile in
  let w := set_environ w "AWS_DEFAULT_REGION" region in
  write_batch w (menu_batch_lines profile region).

(** "Add to credentials file", lines 129-132. *)
Definition add_credentials (credentials : ConfigParser)
    (new_profile access_key secret_key : string) : result ConfigParser :=
  credentials ← add_section credentials new_profile;
  credentials ← set credentials new_profile "aws_access_key_id" access_key;
  set credentials new_profile "aws_secret_access_key" secret_key.

(** "Add to config file", lines 137-141. *)
Definition add_region (config_parser : ConfigParser)
    (new_profile region : string) : result ConfigParser :=
  let section := "profile " +:+ new_profile in
  config_parser ←
    (if negb (has_section config_parser section)
     then add_section config_parser section
     else Ok config_parser);
  set config_parser section "region" region.

(** The [choice == 'a'] branch, lines 114-169. *)
Definition add_profile (w : World) (credentials config_parser : ConfigParser)
    (credentials_path config_path default_region : string)
    (new_profile access_key secret_key region : string) (switch : bool)
  : result Action * World :=
  if decide (new_profile = "") then (Ok EmptyName, w)
  else if has_section credentials new_profile then
    (Ok (AlreadyExists new_profile), w)
  else
    let region := if decide (region = "") then default_region else region in
    match add_credentials credentials new_profile access_key secret_key with
    | Raise e => (Raise e, w)
    | Ok credentials =>
        let w := write_file w credentials_path credentials in
        match add_region config_parser new_profile region with
        | Raise e => (Raise e, w)
        | Ok config_parser =>
            match makedirs (dirname config_path) with
            | Raise e => (Raise e, w)
            | Ok _ =>
                let w := write_file w config_path config_parser in
                if switch then
                  (Ok (Added new_profile (Some region)),
                   apply_switch w new_profile region)
                else (Ok (Added new_profile None), w)
            end
        end
    end.

(** The [choice.isdigit()] branch, lines 171-202. *)
Definition select_profile (w : World) (config_parser : ConfigParser)
    (default_region : string) (profiles : list string) (n : nat)
  : Action * World :=
  match n with
  | 0 => (InvalidNumber, w)
  | S index =>
      match profiles !! index with
      | None => (InvalidNumber, w)
      | Some selected_profile =>
          let selected_region :=
            selected_region config_parser default_region selected_profile in
          (Switched selected_profile selected_region,
           apply_switch w selected_profile selected_region)
      end
  end.

(** [manage_aws_profiles()] *)
Definition manage_aws_profiles (w : World) (answers : Answers)
  : result Outcome * World :=
  let aws_config := aws_config_of w in
  let credentials_path := credentials_path_of w in
  let config_path := config_path_of w in
  let favorites := favorites aws_config in
  let default_region := default_region_of w in
  if negb (exists_path w credentials_path) then
    if create_new answers then
      match makedirs (dirname credentials_path) with
      | Raise e => (Raise e, w)
      | Ok _ =>
          (Ok (CredentialsNotFound credentials_path true),
           write_file w credentials_path new_credentials_file)
      end
    else (Ok (CredentialsNotFound credentials_path false), w)
  else
    let credentials := read w credentials_path in
    let config_parser := read_if_exists w config_path in
    let current_profile := current_profile (environ w) in
    match current_region (environ w) config_parser default_region with
    | Raise e => (Raise e, w)
    | Ok current_region =>
        let profiles := profiles credentials in
        let listing := profile_lines favorites current_profile profiles in
        let report := Menu current_profile current_region listing in
        match choice answers with
        | Quit => (Ok (report QuitMenu), w)
        | Add new_profile access_key secret_key region switch =>
            let '(r, w) :=
              add_profile w credentials config_parser credentials_path
                config_path default_region
                new_profile access_key secret_key region switch in
            (action ← r; Ok (report action), w)
        | Number n =>
            let '(action, w) :=
              select_profile w config_parser default_region profiles n in
            (Ok (report action), w)
        | Other => (Ok (report InvalidOption), w)
        end
    end.

End Scripts.

(** ** Comparing runs that differ in the favorites only *)

(** Two states that agree on everything but the [favorites] list of the
    settings. *)
Definition same_but_favorites (w1 w2 : World) : Prop :=
  environ w1 = environ w2
  ∧ files w1 = files w2
  ∧ batch w1 = batch w2
  ∧ credentials_path (aws_config_of w1) = credentials_path (aws_config_of w2)
  ∧ config_path (aws_config_of w1) = config_path (aws_config_of w2)
  ∧ default_region (aws_config_of w1) = default_region (aws_config_of w2).

(** A report with the favorite marks of its profile list wiped. *)
Definition unmark (line : ProfileLine) : ProfileLine :=
  {| line_number := line_number line;
     line_profile := line_profile line;
     line_favorite := false;
     line_active := line_active line |}.

Definition unmarked (o : Outcome) : Outcome :=
  match o with
  | CredentialsNotFound path created => CredentialsNotFound path created
  | Menu current_profile current_region listing action =>
      Menu current_profile current_region (unmark <$> listing) action
  end.

(** ** Stores after an update *)

(** The parser a fresh, ordinary profile name leaves in the credentials
    store: the old sections, then the new one with its two keys. *)
Definition with_credentials (credentials : ConfigParser)
    (new_profile access_key secret_key : string) : ConfigParser :=
  {| _defaults := _defaults credentials;
     _sections :=
       _sections credentials
       ++ [(new_profile,
            <["aws_secret_access_key" := secret_key]>
              (<["aws_access_key_id" := access_key]> ∅))] |}.

(** ** Text helpers for the platform services *)

Fixpoint dropwhile_not (sep : Ascii.ascii) (cs : list Ascii.ascii) : list Ascii.ascii :=
  match cs with
  | [] => []
  | c :: rest => if bool_decide (c = sep) then cs else dropwhile_not sep rest
  end.

Fixpoint dropwhile_is (sep : Ascii.ascii) (cs : list Ascii.ascii) : list Ascii.ascii :=
  match cs with
  | [] => []
  | c :: rest => if bool_decide (c = sep) then dropwhile_is sep rest else cs
  end.

(** [\w] of an ASCII pattern: letters, digits and the underscore. *)
Definition is_word (c : Ascii.ascii) : bool :=
  let n := Ascii.nat_of_ascii c in
  ((48 <=? n) && (n <=? 57) || (65 <=? n) && (n <=? 90)
   || (97 <=? n) && (n <=? 122) || (n =? 95))%nat.

(** The longest run of word characters at the front, and what follows. *)
Fixpoint word_prefix (cs : list Ascii.ascii) : list Ascii.ascii * list Ascii.ascii :=
  match cs with
  | c :: rest =>
      if is_word c then
        let '(name, after) := word_prefix rest in (c :: name, after)
      else ([], cs)
  | [] => ([], [])
  end.

(** Everything up to the first closing brace, and what follows it. *)
Fixpoint until_brace (cs : list Ascii.ascii) : option (list Ascii.ascii * list Ascii.ascii) :=
  match cs with
  | [] => None
  | c :: rest =>
      if bool_decide (c = "}"%char) then Some ([], rest)
      else '(name, after) ← until_brace rest; Some (c :: name, after)
  end.

(** A name in braces at the front, and what follows it. *)
Definition braced_name (cs : list Ascii.ascii) : option (list Ascii.ascii * list Ascii.ascii) :=
  match cs with
  | c :: rest => if bool_decide (c = "{"%char) then until_brace rest else None
  | [] => None
  end.

(** ** Sample stores and states *)

(** Path templates that mention no variable expand to themselves. *)
Definition plain_paths : gmap string string → string → string :=
  λ _ path, path.

(** *** The platform services on a POSIX host *)

Definition slash : Ascii.ascii := "/"%char.
Definition dollar : Ascii.ascii := "$"%char.

(** [posixpath.dirname]: everything up to the last slash, with the
    trailing slashes taken off unless there is nothing else. *)
Definition posix_dirname (p : string) : string :=
  let head :=
    reverse (dropwhile_not slash (reverse (String.list_ascii_of_string p))) in
  if forallb (λ c, bool_decide (c = slash)) head
  then String.string_of_list_ascii head
  else String.string_of_list_ascii
         (reverse (dropwhile_is slash (reverse head))).

(** [posixpath.expandvars]: [$NAME] and [${NAME}] are replaced by the
    value of a variable that is set and left alone otherwise; a value put
    in is not expanded again. *)
Fixpoint posix_expand (fuel : nat) (env : gmap string string)
    (path : list Ascii.ascii) : list Ascii.ascii :=
  match fuel, path with
  | S fuel, c :: rest =>
      if bool_decide (c = dollar) then
        match braced_name rest with
        | Some (name, after) =>
            match env !! String.string_of_list_ascii name with
            | Some value =>
                (String.list_ascii_of_string value
                 ++ posix_expand fuel env after)%list
            | None =>
                (c :: "{"%char :: name
                 ++ "}"%char :: posix_expand fuel env after)%list
            end
        | None =>
            let '(name, after) := word_prefix rest in
            match name, env !! String.string_of_list_ascii name with
            | _ :: _, Some value =>
                (String.list_ascii_of_string value
                 ++ posix_expand fuel env after)%list
            | _, _ => (c :: name ++ posix_expand fuel env after)%list
            end
        end
      else c :: posix_expand fuel env rest
  | _, _ => path
  end.

Definition posix_expandvars : gmap string string → string → string :=
  λ env path,
    String.string_of_list_ascii
      (posix_expand (String.length path) env (String.list_ascii_of_string path)).

(** A config store that declares a region for the default profile only. *)
Definition default_only_config : ConfigParser :=
  {| _defaults := ∅;
     _sections := [("default", {["region" := "eu-west-1"]})] |}.

(** A credentials store whose [default] section comes second. *)
Definition shuffled_credentials : ConfigParser :=
  {| _defaults := ∅;
     _sections :=
       [("dev", <["aws_secret_access_key" := "s1"]> {["aws_access_key_id" := "k1"]});
        ("default", <["aws_secret_access_key" := "s0"]> {["aws_access_key_id" := "k0"]})] |}.

Definition sample_config : ConfigParser :=
  {| _defaults := ∅;
     _sections :=
       [("default", {["region" := "eu-west-1"]});
        ("profile dev", {["region" := "ap-south-1"]});
        ("profile ops", {["output" := "json"]})] |}.

(** A machine with nothing on it: no settings file, no stores, an empty
    environment. *)
Definition bare_world : World :=
  {| environ := ∅; config_json := None; files := ∅; batch := None |}.

(** The same, with [AWS_REGION] exported in the process environment. *)
Definition region_pinned_world : World :=
  {| environ := {["AWS_REGION" := "eu-central-1"]};
     config_json := None; files := ∅; batch := None |}.

Definition sample_settings (favs : list Favorite) : AwsConfig :=
  {| credentials_path := Some "aws/credentials";
     config_path := Some "aws/config";
     favorites := favs;
     default_region := Some "eu-north-1" |}.

(** A configured machine with both stores in place. *)
Definition sample_world (favs : list Favorite) : World :=
  {| environ := {["HOME" := "/home/dev"]};
     config_json := Some {| aws_profiles := Some (sample_settings favs) |};
     files := <["aws/config" := sample_config]>
                {["aws/credentials" := shuffled_credentials]};
     batch := None |}.

(** A configured machine on which neither store has been written yet. *)
Definition unprovisioned_world : World :=
  {| environ := ∅;
     config_json := Some {| aws_profiles := Some (sample_settings []) |};
     files := ∅;
     batch := None |}.

(** A config store whose [DEFAULT] section declares a region that the
    section of the profile [ops] does not. *)
Definition inheriting_config : ConfigParser :=
  {| _defaults := {["region" := "sa-east-1"]};
     _sections := [("profile ops", {["output" := "json"]})] |}.

(** A machine whose settings keep one config store per profile, named
    after [AWS_PROFILE]. *)
Definition templated_world : World :=
  {| environ := {["AWS_PROFILE" := "dev"]};
     config_json :=
       Some {| aws_profiles :=
                 Some {| credentials_path := Some "aws/credentials";
                         config_path := Some "aws/config-$AWS_PROFILE";
                         favorites := [];
                         default_region := Some "us-east-1" |} |};
     files :=
       <["aws/config-ops" :=
           {| _defaults := ∅;
              _sections := [("profile ops", {["region" := "ap-south-1"]})] |}]>
         (<["aws/config-dev" :=
             {| _defaults := ∅;
                _sections := [("profile ops", {["region" := "eu-north-1"]})] |}]>
            {["aws/credentials" := shuffled_credentials]});
     batch := None |}.

(** A machine whose credentials store has no [default] profile. *)
Definition named_only_world : World :=
  {| environ := ∅;
     config_json := Some {| aws_profiles := Some (sample_settings []) |};
     files := <["aws/config" := default_only_config]>
                {["aws/credentials" :=
                   {| _defaults := ∅;
                      _sections := [("dev", {["aws_access_key_id" := "k1"]})] |}]};
     batch := None |}.

(** A machine with a credentials store and no config store yet. *)
Definition credentials_only_world : World :=
  {| environ := {["AWS_PROFILE" := "staging"]};
     config_json := Some {| aws_profiles := Some (sample_settings []) |};
     files := {["aws/credentials" := shuffled_credentials]};
     batch := None |}.

Definition dev_favorite : Favorite :=
  {| fav_name := "dev"; fav_color := Some "red"; fav_region := Some "us-west-2" |}.

(** ** Facts about the parser model *)

Section ParserFacts.

Implicit Types (cp : ConfigParser) (l : list (string * gmap string string)).

Lemma lookup_section_elem_of l section :
  is_Some (lookup_section l section) ↔ section ∈ l.*1.
Proof.
  induction l as [|[name opts] rest IH]; simpl.
  - split; [intros [? ?]; discriminate | intros H; inversion H].
  - destruct (decide (name = section)) as [->|Hne].
    + split; [intros _; left | eauto].
    + rewrite IH. split; [by right |].
      intros H. inversion H; subst; [done | assumption].
Qed.

Lemma has_section_sections cp section :
  has_section cp section = true ↔ section ∈ sections cp.
Proof.
  unfold has_section, sections.
  rewrite bool_decide_eq_true. apply lookup_section_elem_of.
Qed.

(** The section names the scripts build for a named profile are ordinary
    ones: neither empty nor the parser's [DEFAULT]. *)
Lemma profile_section_ordinary (name : string) :
  "profile " +:+ name ≠ "" ∧ "profile " +:+ name ≠ default_section.
Proof. split; intros H; simpl in H; discriminate H. Qed.

Lemma section_name_ordinary (profile_name : string) :
  section_name profile_name ≠ "" ∧ section_name profile_name ≠ default_section.
Proof.
  unfold section_name. case_decide.
  - split; discriminate.
  - apply profile_section_ordinary.
Qed.

(** For an ordinary section, [has_option] says whether [get] finds a
    value; with a fallback, [get] then returns that same value. *)
Lemma has_option_get cp section option fallback :
  section ≠ "" → section ≠ default_section →
  has_option cp section option = true →
  ∃ value, get cp section option = Ok value
           ∧ get_fallback cp section option fallback = value.
Proof.
  intros Hne Hnd. unfold has_option, get, get_fallback, unify_values.
  rewrite bool_decide_eq_false_2 by (intros [?|?]; done).
  destruct (lookup_section (_sections cp) section) as [opts|]; [|done].
  intros Hopt. apply orb_true_iff in Hopt.
  assert (is_Some ((opts ∪ _defaults cp) !! option)) as [value Hv].
  { rewrite lookup_union_is_Some.
    destruct Hopt as [H|H]; apply bool_decide_eq_true in H; auto. }
  exists value. by rewrite Hv.
Qed.

(** Without the option, the fallback is what comes back. *)
Lemma no_option_get_fallback cp section option fallback :
  section ≠ "" → section ≠ default_section →
  has_option cp section option = false →
  get_fallback cp section option fallback = fallback.
Proof.
  intros Hne Hnd. unfold has_option, get_fallback, unify_values.
  rewrite bool_decide_eq_false_2 by (intros [?|?]; done).
  destruct (lookup_section (_sections cp) section) as [opts|].
  - intros Hopt. apply orb_false_iff in Hopt as [H1 H2].
    apply bool_decide_eq_false in H1, H2.
    rewrite <- eq_None_not_Some in H1, H2.
    assert ((opts ∪ _defaults cp) !! option = None) as ->; [|done].
    by apply lookup_union_None.
  - intros _. by rewrite decide_False.
Qed.

(** The guard of the [insert(0, "default")] never holds: [has_section]
    and membership in [sections()] are the same test. *)
Lemma profiles_sections (credentials : ConfigParser) :
  profiles credentials = sections credentials.
Proof.
  unfold profiles.
  destruct (has_section credentials "default") eqn:Hs.
  - apply has_section_sections in Hs.
    by rewrite (bool_decide_eq_true_2 _ Hs).
  - by rewrite andb_false_r.
Qed.

(** Resolving the current region never raises: [get] is called only
    behind a successful [has_option]. *)
Lemma current_region_ok (env : gmap string string) cp (default_region : string) :
  ∃ region, current_region env cp default_region = Ok region.
Proof.
  unfold current_region.
  destruct (env !! "AWS_REGION"); [eauto|].
  destruct (env !! "AWS_DEFAULT_REGION"); [eauto|].
  destruct (has_section cp _ && has_option cp _ "region") eqn:H; [|eauto].
  apply andb_true_iff in H as [_ H].
  destruct (profile_section_ordinary (current_profile env)) as [H1 H2].
  destruct (has_option_get cp _ _ default_region H1 H2 H) as (v & Hv & _).
  eauto.
Qed.

End ParserFacts.

(** ** Resolving the active profile and region *)

Section Resolution.

Implicit Types (env : gmap string string) (cp : ConfigParser).

(** The profile is the value of [AWS_PROFILE], or ["default"]. *)
Lemma current_profile_set env (foo : string) :
  env !! "AWS_PROFILE" = Some foo → current_profile env = foo.
Proof. unfold current_profile. by intros ->. Qed.

Lemma current_profile_unset env :
  env !! "AWS_PROFILE" = None → current_profile env = "default".
Proof. unfold current_profile. by intros ->. Qed.

(** Region precedence: [AWS_REGION] wins, then [AWS_DEFAULT_REGION]. *)
Lemma current_region_AWS_REGION env cp (default_region r : string) :
  env !! "AWS_REGION" = Some r →
  current_region env cp default_region = Ok r.
Proof. unfold current_region. by intros ->. Qed.

Lemma current_region_AWS_DEFAULT_REGION env cp (default_region r : string) :
  env !! "AWS_REGION" = None →
  env !! "AWS_DEFAULT_REGION" = Some r →
  current_region env cp default_region = Ok r.
Proof. unfold current_region. by intros -> ->. Qed.

(** With no region variable set, a profile other than ["default"] gets
    the region its [profile <name>] section declares, or the configured
    default: the value the switch code computes for it. *)
Lemma current_region_named_profile env cp (default_region foo : string) :
  env !! "AWS_PROFILE" = Some foo →
  env !! "AWS_REGION" = None →
  env !! "AWS_DEFAULT_REGION" = None →
  foo ≠ "default" →
  current_region env cp default_region
  = Ok (selected_region cp default_region foo).
Proof.
  intros Hp Hr Hd Hfoo.
  unfold current_region, selected_region, section_name.
  rewrite Hr, Hd, (current_profile_set _ _ Hp), decide_False by done.
  destruct (profile_section_ordinary foo) as [H1 H2].
  destruct (has_section cp _) eqn:Hs; [|done]. simpl.
  destruct (has_option cp _ "region") eqn:Ho.
  - destruct (has_option_get cp _ _ default_region H1 H2 Ho) as (v & -> & ->).
    done.
  - by rewrite (no_option_get_fallback cp _ _ _ H1 H2 Ho).
Qed.

(** With no variable set and no [profile default] section, the answer is
    [("default", default_region)]. *)
Lemma current_region_no_signal cp (default_region : string) :
  has_section cp "profile default" = false →
  current_profile ∅ = "default"
  ∧ current_region ∅ cp default_region = Ok default_region.
Proof.
  intros Hs. split; [done|].
  unfold current_region. rewrite !lookup_empty.
  assert ("profile " +:+ current_profile (∅ : gmap string string)
          = "profile default") as -> by reflexivity.
  by rewrite Hs.
Qed.

(** C1: with [AWS_PROFILE=default] and no region variable set, the
    resolution block looks for a section [profile default]; the region
    the config store declares for the default profile, in its [default]
    section, is not found and the configured default region is returned,
    while the switch code finds the declared region for the same
    profile. *)
Theorem default_profile_region_missed :
  let env : gmap string string := {["AWS_PROFILE" := "default"]} in
  env !! "AWS_REGION" = None
  ∧ env !! "AWS_DEFAULT_REGION" = None
  ∧ current_profile env = "default"
  ∧ current_region env default_only_config "us-east-1" = Ok "us-east-1"
  ∧ selected_region default_only_config "us-east-1" "default" = "eu-west-1".
Proof. by vm_compute. Qed.

End Resolution.

(** ** Listing the profiles *)

Section Listing.

(** C2, as stated, fails: a credentials store that lists [dev] before
    [default] is listed in that order. *)
Lemma default_not_hoisted :
  has_section shuffled_credentials "default" = true
  ∧ profiles shuffled_credentials !! 0 = Some "dev"
  ∧ profiles shuffled_credentials !! 1 = Some "default".
Proof. by vm_compute. Qed.

(** C2, amended: the listing is exactly the credentials store's section
    names in file order, so [default] sits at the index it has in the
    file, and is at index 0 exactly when it is the first section. *)
Theorem profiles_file_order (credentials : ConfigParser) :
  profiles credentials = (_sections credentials).*1
  ∧ (profiles credentials !! 0 = Some "default"
     ↔ ∃ opts rest, _sections credentials = ("default", opts) :: rest).
Proof.
  rewrite profiles_sections. unfold sections. split; [done|].
  destruct (_sections credentials) as [|[name opts] rest]; simpl.
  - split; [done | intros (? & ? & ?); done].
  - split.
    + intros [= ->]. eauto.
    + intros (? & ? & [= -> _ _]). done.
Qed.

End Listing.

(** ** Switching profiles *)

Section Switching.

Variable expandvars : gmap string string → string → string.

Implicit Types (w : World) (env : gmap string string) (cp : ConfigParser).

(** The region the tray's switch resolves for a profile in a state. *)
Lemma switch_profile_region w (profile_name : string) :
  (switch_profile expandvars w profile_name).1
  = selected_region (read_if_exists w (config_path_of expandvars w))
      (default_region_of w) profile_name.
Proof. done. Qed.

(** The environment after a switch, variable by variable. *)
Lemma switch_profile_environ w (profile_name k : string) :
  environ (switch_profile expandvars w profile_name).2 !! k
  = if decide (k = "AWS_DEFAULT_REGION")
    then Some (switch_profile expandvars w profile_name).1
    else if decide (k = "AWS_PROFILE") then Some profile_name
    else environ w !! k.
Proof.
  unfold switch_profile; simpl.
  repeat case_decide; subst; by simplify_map_eq.
Qed.

Lemma apply_switch_environ w (profile region k : string) :
  environ (apply_switch w profile region) !! k
  = if decide (k = "AWS_DEFAULT_REGION") then Some region
    else if decide (k = "AWS_PROFILE") then Some profile
    else environ w !! k.
Proof.
  unfold apply_switch; simpl.
  repeat case_decide; subst; by simplify_map_eq.
Qed.

(** Setting the same two variables again changes nothing. *)
Lemma set_pair_again env (k1 k2 v1 v2 : string) :
  <[k2 := v2]> (<[k1 := v1]> (<[k2 := v2]> (<[k1 := v1]> env)))
  = <[k2 := v2]> (<[k1 := v1]> env).
Proof.
  apply map_eq; intros k. rewrite !lookup_insert.
  by repeat case_decide.
Qed.

Lemma apply_switch_again w (profile region : string) :
  apply_switch (apply_switch w profile region) profile region
  = apply_switch w profile region.
Proof.
  unfold apply_switch, write_batch, set_environ; simpl.
  by rewrite set_pair_again.
Qed.

(** A switch leaves the settings and the stores alone. *)
Lemma switch_profile_frame w (profile_name : string) :
  config_json (switch_profile expandvars w profile_name).2 = config_json w
  ∧ files (switch_profile expandvars w profile_name).2 = files w.
Proof. done. Qed.

(** C6, as stated, fails: a section that has no [region] key of its
    own inherits the key of the store's [DEFAULT] section, and the lookup
    returns that region, not the configured default. *)
Lemma section_without_region_inherits :
  lookup_section (_sections inheriting_config) (section_name "ops")
  = Some {["output" := "json"]}
  ∧ ({["output" := "json"]} : gmap string string) !! "region" = None
  ∧ selected_region inheriting_config "us-east-1" "ops" = "sa-east-1".
Proof. by vm_compute. Qed.

(** C6, amended: the region lookup for a profile is a total function.
    It returns the configured default region when the profile's section
    ([default] for the profile ["default"], [profile X] otherwise) is
    missing from the config store, and when the section is there and
    neither it nor the store's [DEFAULT] section holds a [region] key; so
    does the switch that is built on it, whatever state it runs in. When
    the section has no [region] key of its own and [DEFAULT] has one, the
    lookup returns the region of [DEFAULT]. *)
Theorem selected_region_missing cp (default_region X : string) :
  (lookup_section (_sections cp) (section_name X) = None
   ∨ (∃ opts, lookup_section (_sections cp) (section_name X) = Some opts
              ∧ opts !! "region" = None)
     ∧ _defaults cp !! "region" = None →
   selected_region cp default_region X = default_region
   ∧ ∀ w, read_if_exists w (config_path_of expandvars w) = cp →
          (switch_profile expandvars w X).1 = default_region_of w)
  ∧ ∀ opts inherited,
      lookup_section (_sections cp) (section_name X) = Some opts →
      opts !! "region" = None →
      _defaults cp !! "region" = Some inherited →
      selected_region cp default_region X = inherited.
Proof.
  assert (∀ (d : string) opts,
            lookup_section (_sections cp) (section_name X) = Some opts →
            opts !! "region" = None →
            selected_region cp d X = default d (_defaults cp !! "region"))
    as Hown.
  { intros d opts Hl Ho.
    unfold selected_region, has_section, get_fallback, unify_values.
    rewrite Hl. rewrite bool_decide_eq_true_2 by eauto.
    by rewrite lookup_union_r. }
  split.
  - intros H.
    assert (∀ d : string, selected_region cp d X = d) as Hsel.
    { intros d. destruct H as [Hl|[(opts & Hl & Ho) Hd]].
      - unfold selected_region, has_section. rewrite Hl.
        by rewrite bool_decide_eq_false_2 by (by intros [? ?]).
      - rewrite (Hown d opts Hl Ho), Hd. done. }
    split; [done|].
    intros w <-. by rewrite switch_profile_region.
  - intros opts inherited Hl Ho Hd. by rewrite (Hown _ opts Hl Ho), Hd.
Qed.

(** C3, as stated, fails: with [AWS_REGION] exported, the resolution
    after a switch still answers with that variable, not with the region
    the switch resolved. *)
Lemma switch_then_resolve_pinned :
  let region := (switch_profile plain_paths region_pinned_world "dev").1 in
  let w' := (switch_profile plain_paths region_pinned_world "dev").2 in
  region = "us-east-1"
  ∧ current_region (environ w')
      (read_if_exists w' (config_path_of plain_paths w')) (default_region_of w')
    = Ok "eu-central-1".
Proof. by vm_compute. Qed.

(** C3, amended: from every initial state in which [AWS_REGION] is not
    set, a switch to [p] followed by the resolution block yields [p] and
    the region the switch resolved for [p], whatever the config store
    and default region the block is run with; the tray's
    [get_aws_profiles] reports that pair whenever the credentials file
    exists. *)
Theorem switch_then_resolve w (p : string) cp (default_region : string) :
  environ w !! "AWS_REGION" = None →
  let region := (switch_profile expandvars w p).1 in
  let w' := (switch_profile expandvars w p).2 in
  region = selected_region (read_if_exists w (config_path_of expandvars w))
             (default_region_of w) p
  ∧ current_profile (environ w') = p
  ∧ current_region (environ w') cp default_region = Ok region
  ∧ (exists_path w' (credentials_path_of expandvars w') = true →
     ∃ listed favs,
       get_aws_profiles expandvars w' = Ok (listed, p, region, favs)).
Proof.
  intros Hr region w'.
  assert (environ w' !! "AWS_PROFILE" = Some p) as Hp.
  { unfold w'. rewrite switch_profile_environ. by repeat case_decide. }
  assert (environ w' !! "AWS_REGION" = None) as Hr'.
  { unfold w'. rewrite switch_profile_environ. by repeat case_decide. }
  assert (environ w' !! "AWS_DEFAULT_REGION" = Some region) as Hd.
  { unfold w'. rewrite switch_profile_environ. by repeat case_decide. }
  split; [done|]. clearbody w' region.
  assert (∀ cp d, current_region (environ w') cp d = Ok region) as Hcr.
  { intros. by apply current_region_AWS_DEFAULT_REGION. }
  split_and!; [by apply current_profile_set | done |].
  intros Hex. unfold get_aws_profiles. rewrite Hex; simpl.
  rewrite Hcr; simpl. rewrite (current_profile_set _ _ Hp). eauto.
Qed.

End Switching.

Lemma selected_region_missing_witness :
  selected_region sample_config "eu-north-1" "ops" = "eu-north-1"
  ∧ (switch_profile plain_paths (sample_world []) "qa").1 = "eu-north-1"
  ∧ selected_region inheriting_config "us-east-1" "ops" = "sa-east-1".
Proof.
  split_and!.
  - apply (selected_region_missing plain_paths sample_config "eu-north-1" "ops").
    right. split; [|reflexivity].
    exists {["output" := "json"]}. split; reflexivity.
  - apply (selected_region_missing plain_paths sample_config "eu-north-1" "qa");
      [left|]; reflexivity.
  - apply (proj2 (selected_region_missing plain_paths inheriting_config
                    "us-east-1" "ops") {["output" := "json"]});
      reflexivity.
Defined.

Lemma switch_then_resolve_witness :
  let w' := (switch_profile plain_paths (sample_world []) "dev").2 in
  environ (sample_world []) !! "AWS_REGION" = None
  ∧ current_profile (environ w') = "dev"
  ∧ current_region (environ w') sample_config "eu-north-1"
    = Ok (switch_profile plain_paths (sample_world []) "dev").1.
Proof.
  assert (environ (sample_world []) !! "AWS_REGION" = None) as H by reflexivity.
  split; [exact H|].
  pose proof (switch_then_resolve plain_paths (sample_world []) "dev"
                sample_config "eu-north-1" H) as (_ & H1 & H2 & _).
  split; [exact H1 | exact H2].
Defined.

(** ** The menu script, run by run *)

Section Menu.

Variable expandvars : gmap string string → string → string.
Variable dirname : string → string.

Implicit Types (w : World) (a : Answers).

(** Without a credentials file the run ends before any listing. *)
Lemma manage_without_credentials w a :
  exists_path w (credentials_path_of expandvars w) = false →
  manage_aws_profiles expandvars dirname w a
  = if create_new a then
      match makedirs (dirname (credentials_path_of expandvars w)) with
      | Raise e => (Raise e, w)
      | Ok _ =>
          (Ok (CredentialsNotFound (credentials_path_of expandvars w) true),
           write_file w (credentials_path_of expandvars w) new_credentials_file)
      end
    else (Ok (CredentialsNotFound (credentials_path_of expandvars w) false), w).
Proof. intros H. unfold manage_aws_profiles. by rewrite H. Qed.

(** With one, the run shows the current selection and the list, then
    acts on the choice. *)
Lemma manage_with_credentials w a :
  exists_path w (credentials_path_of expandvars w) = true →
  let credentials := read w (credentials_path_of expandvars w) in
  let config_parser := read_if_exists w (config_path_of expandvars w) in
  ∃ region,
    current_region (environ w) config_parser (default_region_of w) = Ok region
    ∧ manage_aws_profiles expandvars dirname w a
      = let report :=
          Menu (current_profile (environ w)) region
            (profile_lines (favorites (aws_config_of w))
               (current_profile (environ w)) (profiles credentials)) in
        match choice a with
        | Quit => (Ok (report QuitMenu), w)
        | Add new_profile access_key secret_key region switch =>
            let '(r, w) :=
              add_profile dirname w credentials config_parser
                (credentials_path_of expandvars w) (config_path_of expandvars w)
                (default_region_of w)
                new_profile access_key secret_key region switch in
            (action ← r; Ok (report action), w)
        | Number n =>
            let '(action, w) :=
              select_profile w config_parser (default_region_of w)
                (profiles credentials) n in
            (Ok (report action), w)
        | Other => (Ok (report InvalidOption), w)
        end.
Proof.
  intros Hex credentials config_parser.
  destruct (current_region_ok (environ w) config_parser (default_region_of w))
    as [region Hregion].
  exists region. split; [done|].
  unfold manage_aws_profiles. rewrite Hex; simpl.
  fold credentials config_parser. by rewrite Hregion.
Qed.

(** What a numbered choice that ends in a switch must have been. *)
Lemma select_profile_switched w cp (default_region : string)
    (listed : list string) (n : nat) (p r : string) w' :
  select_profile w cp default_region listed n = (Switched p r, w') →
  ∃ index, n = S index ∧ listed !! index = Some p
           ∧ r = selected_region cp default_region p
           ∧ w' = apply_switch w p r.
Proof.
  unfold select_profile. destruct n as [|index]; [done|].
  destruct (listed !! index) as [q|] eqn:Hq; [|done].
  intros [= -> <- <-]. eauto.
Qed.

End Menu.

(** ** Properties of a switch *)

Section SwitchProperties.

Variable expandvars : gmap string string → string → string.
Variable dirname : string → string.

Implicit Types (w : World) (a : Answers) (cp : ConfigParser).

(** C4, amended: the paths of the stores are expanded from the
    environment on every run. Whenever they name the same files after the
    switch as before it, a switch to the same profile, made again,
    resolves the same region and leaves the state as the first switch
    left it: environment, stores and helper script. The tray's
    [switch_profile] and the numbered choice of the menu script both
    behave so, and neither can raise. *)
Theorem switch_idempotent w (p : string) :
  let r1 := (switch_profile expandvars w p).1 in
  let w1 := (switch_profile expandvars w p).2 in
  (config_path_of expandvars w1 = config_path_of expandvars w →
   switch_profile expandvars w1 p = (r1, w1))
  ∧ ∀ a n current region listing q r w2,
      choice a = Number n →
      manage_aws_profiles expandvars dirname w a
      = (Ok (Menu current region listing (Switched q r)), w2) →
      credentials_path_of expandvars w2 = credentials_path_of expandvars w →
      config_path_of expandvars w2 = config_path_of expandvars w →
      ∃ region' listing',
        manage_aws_profiles expandvars dirname w2 a
        = (Ok (Menu q region' listing' (Switched q r)), w2).
Proof.
  intros r1 w1. split.
  - intros Hpath. unfold switch_profile at 1.
    rewrite Hpath. unfold w1 at 1 2 3 4, r1.
    unfold switch_profile, read_if_exists, exists_path, read, default_region_of,
      aws_config_of, load_config, write_batch, set_environ; simpl.
    by rewrite set_pair_again.
  - clear r1 w1.
    intros a n current region listing q r w2 Hn Hrun Hcred Hcfg.
    destruct (exists_path w (credentials_path_of expandvars w)) eqn:Hex.
    2:{ rewrite (manage_without_credentials _ _ _ _ Hex) in Hrun.
        destruct (create_new a); [destruct (makedirs _)|]; done. }
    destruct (manage_with_credentials expandvars dirname w a Hex) as (reg & _ & Hm).
    rewrite Hm, Hn in Hrun. clear Hm.
    destruct (select_profile w _ _ _ n) as [action w'] eqn:Hsel.
    injection Hrun as _ _ _ -> ->.
    apply select_profile_switched in Hsel as (index & -> & Hq & Hr & ->).
    set (w2 := apply_switch w q r) in *.
    assert (files w2 = files w ∧ config_json w2 = config_json w) as [Hf Hj]
      by done.
    assert (exists_path w2 (credentials_path_of expandvars w2) = true) as Hex2.
    { rewrite Hcred. unfold exists_path in *. by rewrite Hf. }
    destruct (manage_with_credentials expandvars dirname w2 a Hex2) as (reg2 & _ & Hm2).
    rewrite Hm2, Hn, Hcred, Hcfg. clear Hm2.
    assert (read w2 (credentials_path_of expandvars w)
            = read w (credentials_path_of expandvars w)) as ->
      by (unfold read; by rewrite Hf).
    assert (read_if_exists w2 (config_path_of expandvars w)
            = read_if_exists w (config_path_of expandvars w)) as ->
      by (unfold read_if_exists, exists_path, read; by rewrite Hf).
    assert (default_region_of w2 = default_region_of w) as ->
      by (unfold default_region_of, aws_config_of, load_config; by rewrite Hj).
    assert (current_profile (environ w2) = q) as ->.
    { apply current_profile_set. unfold w2. rewrite apply_switch_environ.
      by repeat case_decide. }
    unfold select_profile. rewrite Hq, <- Hr.
    unfold w2. rewrite apply_switch_again. eauto.
Qed.

(** C8: the tray's switch never looks at the credentials store. For
    every profile name, listed there or not, it returns the region
    resolved for that name and leaves [AWS_PROFILE] set to the name and
    [AWS_DEFAULT_REGION] set to that region, with the helper script
    written for the same pair; it has no failing outcome. *)
Theorem switch_unchecked w (p : string) :
  ∃ region w',
    switch_profile expandvars w p = (region, w')
    ∧ region = selected_region (read_if_exists w (config_path_of expandvars w))
                 (default_region_of w) p
    ∧ environ w' !! "AWS_PROFILE" = Some p
    ∧ environ w' !! "AWS_DEFAULT_REGION" = Some region
    ∧ current_profile (environ w') = p
    ∧ batch w' = Some (tray_batch_lines p region)
    ∧ files w' = files w.
Proof.
  exists (switch_profile expandvars w p).1, (switch_profile expandvars w p).2.
  split; [by destruct (switch_profile expandvars w p)|].
  split; [done|].
  assert (environ (switch_profile expandvars w p).2 !! "AWS_PROFILE" = Some p)
    as Hp by (rewrite switch_profile_environ; by repeat case_decide).
  split_and!; [done | | by apply current_profile_set | done | done].
  rewrite switch_profile_environ. by repeat case_decide.
Qed.

(** C9: a switch writes [AWS_PROFILE] and [AWS_DEFAULT_REGION] and no
    other variable, in the tray and in the menu script alike; a value of
    [AWS_REGION] that was there before is still there afterwards and is
    what the resolution block goes on answering. *)
Theorem switch_environ_frame w (p : string) :
  (∀ k : string,
      k ≠ "AWS_PROFILE" → k ≠ "AWS_DEFAULT_REGION" →
      environ (switch_profile expandvars w p).2 !! k = environ w !! k
      ∧ ∀ region : string,
          environ (apply_switch w p region) !! k = environ w !! k)
  ∧ (∀ pinned : string,
      environ w !! "AWS_REGION" = Some pinned →
      ∀ cp (default_region : string),
        current_region (environ (switch_profile expandvars w p).2)
          cp default_region = Ok pinned).
Proof.
  split.
  - intros k H1 H2. split; [|intros region].
    + rewrite switch_profile_environ. by rewrite !decide_False.
    + rewrite apply_switch_environ. by rewrite !decide_False.
  - intros pinned Hpinned cp default_region.
    apply current_region_AWS_REGION.
    rewrite switch_profile_environ. by rewrite !decide_False.
Qed.

End SwitchProperties.

(** A name the credentials store does not list is switched to like any
    other. *)
Example switch_to_unlisted :
  let w := sample_world [] in
  ("typo" ∉ profiles (read w (credentials_path_of plain_paths w)))
  ∧ (switch_profile plain_paths w "typo").1 = "eu-north-1"
  ∧ environ (switch_profile plain_paths w "typo").2 !! "AWS_PROFILE" = Some "typo"
  ∧ environ (switch_profile plain_paths w "typo").2 !! "AWS_DEFAULT_REGION"
    = Some "eu-north-1".
Proof.
  split; [|by vm_compute].
  rewrite profiles_sections. apply not_elem_of_cons; split; [done|].
  apply not_elem_of_cons; split; [done|]. apply not_elem_of_nil.
Qed.

(** C4, as stated, fails: with a config path that mentions
    [AWS_PROFILE], the first switch reads the store of the old profile and
    the second the store of the new one, and the two resolve different
    regions and leave different environments. *)
Lemma switch_twice_templated :
  let first := switch_profile posix_expandvars templated_world "ops" in
  let second := switch_profile posix_expandvars first.2 "ops" in
  first.1 = "eu-north-1"
  ∧ second.1 = "ap-south-1"
  ∧ environ first.2 !! "AWS_DEFAULT_REGION" = Some "eu-north-1"
  ∧ environ second.2 !! "AWS_DEFAULT_REGION" = Some "ap-south-1".
Proof. by vm_compute. Qed.

Lemma switch_idempotent_witness :
  let w := sample_world [dev_favorite] in
  let a := {| create_new := false; choice := Number 1 |} in
  let w2 := (manage_aws_profiles plain_paths posix_dirname w a).2 in
  switch_profile plain_paths (switch_profile plain_paths w "ops").2 "ops"
  = switch_profile plain_paths w "ops"
  ∧ ∃ region' listing',
      manage_aws_profiles plain_paths posix_dirname w2 a
      = (Ok (Menu "dev" region' listing' (Switched "dev" "ap-south-1")), w2).
Proof.
  intros w a w2.
  pose proof (switch_idempotent plain_paths posix_dirname w "ops") as [Htray Hmenu].
  split.
  - rewrite Htray by reflexivity. by destruct (switch_profile plain_paths w "ops").
  - apply (Hmenu a 1 "default" "eu-north-1"
             (profile_lines [dev_favorite] "default" ["dev"; "default"])).
    + reflexivity.
    + by vm_compute.
    + reflexivity.
    + reflexivity.
Defined.

Lemma switch_environ_frame_witness :
  environ (switch_profile plain_paths region_pinned_world "dev").2 !! "AWS_REGION"
  = Some "eu-central-1"
  ∧ current_region (environ (switch_profile plain_paths region_pinned_world "dev").2)
      sample_config "eu-north-1" = Ok "eu-central-1".
Proof.
  pose proof (switch_environ_frame plain_paths region_pinned_world "dev")
    as [Hframe Hpinned].
  split.
  - by destruct (Hframe "AWS_REGION" ltac:(done) ltac:(done)) as [-> _].
  - by apply Hpinned.
Defined.

(** ** Favorites and resolution *)

Section Favorites.

Variable expandvars : gmap string string → string → string.
Variable dirname : string → string.

Implicit Types (w : World) (a : Answers) (cp : ConfigParser).

Lemma same_but_favorites_refl w : same_but_favorites w w.
Proof. by repeat split. Qed.

Lemma same_set_environ w1 w2 (k v : string) :
  same_but_favorites w1 w2 →
  same_but_favorites (set_environ w1 k v) (set_environ w2 k v).
Proof.
  intros (He & Hf & Hb & H1 & H2 & H3).
  repeat split; simpl; try done. by rewrite He.
Qed.

Lemma same_write_file w1 w2 (path : string) cp :
  same_but_favorites w1 w2 →
  same_but_favorites (write_file w1 path cp) (write_file w2 path cp).
Proof.
  intros (He & Hf & Hb & H1 & H2 & H3).
  repeat split; simpl; try done. by rewrite Hf.
Qed.

Lemma same_write_batch w1 w2 (lines : list string) :
  same_but_favorites w1 w2 →
  same_but_favorites (write_batch w1 lines) (write_batch w2 lines).
Proof. intros (He & Hf & Hb & H1 & H2 & H3). by repeat split. Qed.

Lemma same_apply_switch w1 w2 (profile region : string) :
  same_but_favorites w1 w2 →
  same_but_favorites (apply_switch w1 profile region)
    (apply_switch w2 profile region).
Proof.
  intros H. unfold apply_switch.
  by apply same_write_batch, same_set_environ, same_set_environ.
Qed.

(** What the scripts read of a state, favorites apart, is the same in
    both. *)
Lemma same_reads w1 w2 :
  same_but_favorites w1 w2 →
  credentials_path_of expandvars w1 = credentials_path_of expandvars w2
  ∧ config_path_of expandvars w1 = config_path_of expandvars w2
  ∧ default_region_of w1 = default_region_of w2
  ∧ (∀ path, exists_path w1 path = exists_path w2 path)
  ∧ (∀ path, read w1 path = read w2 path)
  ∧ (∀ path, read_if_exists w1 path = read_if_exists w2 path).
Proof.
  intros (He & Hf & Hb & H1 & H2 & H3).
  unfold credentials_path_of, config_path_of, default_region_of,
    read_if_exists, expand_path, exists_path, read.
  rewrite He, Hf, H1, H2, H3. done.
Qed.

Lemma same_add_profile w1 w2 (credentials config_parser : ConfigParser)
    (credentials_path config_path default_region : string)
    (new_profile access_key secret_key region : string) (switch : bool) :
  same_but_favorites w1 w2 →
  (add_profile dirname w1 credentials config_parser credentials_path config_path
     default_region new_profile access_key secret_key region switch).1
  = (add_profile dirname w2 credentials config_parser credentials_path config_path
       default_region new_profile access_key secret_key region switch).1
  ∧ same_but_favorites
      (add_profile dirname w1 credentials config_parser credentials_path config_path
         default_region new_profile access_key secret_key region switch).2
      (add_profile dirname w2 credentials config_parser credentials_path config_path
         default_region new_profile access_key secret_key region switch).2.
Proof.
  intros H. unfold add_profile.
  case_decide; [done|].
  destruct (has_section credentials new_profile); [done|].
  destruct (add_credentials _ _ _ _); [|done].
  destruct (add_region _ _ _); simpl; [|auto using same_write_file].
  destruct (makedirs _); simpl; [|auto using same_write_file].
  destruct switch; simpl; (split; [done|]);
    auto using same_apply_switch, same_write_file.
Qed.

Lemma same_select_profile w1 w2 cp (default_region : string)
    (listed : list string) (n : nat) :
  same_but_favorites w1 w2 →
  (select_profile w1 cp default_region listed n).1
  = (select_profile w2 cp default_region listed n).1
  ∧ same_but_favorites (select_profile w1 cp default_region listed n).2
      (select_profile w2 cp default_region listed n).2.
Proof.
  intros H. unfold select_profile.
  destruct n as [|index]; [done|].
  destruct (listed !! index); [|done].
  simpl. auto using same_apply_switch.
Qed.

Lemma unmark_profile_lines (favs1 favs2 : list Favorite)
    (current : string) (listed : list string) :
  unmark <$> profile_lines favs1 current listed
  = unmark <$> profile_lines favs2 current listed.
Proof.
  unfold profile_lines. rewrite !fmap_imap. apply imap_ext. done.
Qed.

(** C10: favorites play no part in resolution. In two states that differ
    in the favorites only, the tray's [get_aws_profiles] lists the same
    profiles and resolves the same profile and region, the region lookup
    and [switch_profile] give the same region for every profile and
    leave states that again differ in the favorites only (same
    environment, stores and helper script), and a run of the menu script
    reports and does the same but for the favorite marks in its
    listing. *)
Theorem favorites_do_not_interfere w1 w2 :
  same_but_favorites w1 w2 →
  (∃ listed profile region,
      get_aws_profiles expandvars w1
      = Ok (listed, profile, region, favorites (aws_config_of w1))
      ∧ get_aws_profiles expandvars w2
        = Ok (listed, profile, region, favorites (aws_config_of w2)))
  ∧ (∀ p : string,
      selected_region (read_if_exists w1 (config_path_of expandvars w1))
        (default_region_of w1) p
      = selected_region (read_if_exists w2 (config_path_of expandvars w2))
          (default_region_of w2) p
      ∧ (switch_profile expandvars w1 p).1 = (switch_profile expandvars w2 p).1
      ∧ same_but_favorites (switch_profile expandvars w1 p).2
          (switch_profile expandvars w2 p).2)
  ∧ (∀ a,
      configparser.map unmarked (manage_aws_profiles expandvars dirname w1 a).1
      = configparser.map unmarked (manage_aws_profiles expandvars dirname w2 a).1
      ∧ same_but_favorites (manage_aws_profiles expandvars dirname w1 a).2
          (manage_aws_profiles expandvars dirname w2 a).2).
Proof.
  intros Hsame.
  destruct (same_reads w1 w2 Hsame) as (Hcred & Hcfg & Hdef & Hex & Hrd & Hrx).
  pose proof Hsame as (Henv & _).
  split_and!.
  - unfold get_aws_profiles.
    rewrite Hcred, Hcfg, Hdef, Hex, Hrd, Hrx, Henv.
    destruct (exists_path w2 _); simpl; [|eauto].
    destruct (current_region_ok (environ w2)
                (read_if_exists w2 (config_path_of expandvars w2))
                (default_region_of w2)) as [region ->].
    simpl. eauto.
  - intros p.
    assert (selected_region (read_if_exists w1 (config_path_of expandvars w1))
              (default_region_of w1) p
            = selected_region (read_if_exists w2 (config_path_of expandvars w2))
                (default_region_of w2) p) as Hreg
      by (by rewrite Hcfg, Hdef, Hrx).
    split_and!; [done | done |].
    unfold switch_profile; simpl. rewrite Hreg.
    by apply same_write_batch, same_set_environ, same_set_environ.
  - intros a. unfold manage_aws_profiles.
    rewrite Hcred, Hcfg, Hdef, Hex, Hrd, Hrx, Henv.
    destruct (exists_path w2 _); simpl.
    2:{ destruct (create_new a); simpl; [|done].
        destruct (makedirs _); simpl; auto using same_write_file. }
    destruct (current_region _ _ _) as [region|e]; [|done].
    destruct (choice a) as [|new_profile access_key secret_key r switch|n|];
      simpl.
    + split; [|done]. f_equal. f_equal. apply unmark_profile_lines.
    + pose proof (same_add_profile w1 w2
                    (read w2 (credentials_path_of expandvars w2))
                    (read_if_exists w2 (config_path_of expandvars w2))
                    (credentials_path_of expandvars w2)
                    (config_path_of expandvars w2) (default_region_of w2)
                    new_profile access_key secret_key r switch Hsame)
        as [Hr Hw].
      destruct (add_profile dirname w1 _ _ _ _ _ _ _ _ _ _) as [r1 w1'].
      destruct (add_profile dirname w2 _ _ _ _ _ _ _ _ _ _) as [r2 w2'].
      simpl in *. subst r2. split; [|done].
      destruct r1; simpl; [|done].
      f_equal. f_equal. apply unmark_profile_lines.
    + pose proof (same_select_profile w1 w2
                    (read_if_exists w2 (config_path_of expandvars w2))
                    (default_region_of w2)
                    (profiles (read w2 (credentials_path_of expandvars w2)))
                    n Hsame) as [Hr Hw].
      destruct (select_profile w1 _ _ _ _) as [r1 w1'].
      destruct (select_profile w2 _ _ _ _) as [r2 w2'].
      simpl in *. subst r2. split; [|done].
      f_equal. f_equal. apply unmark_profile_lines.
    + split; [|done]. f_equal. f_equal. apply unmark_profile_lines.
Qed.

End Favorites.

Lemma favorites_do_not_interfere_witness :
  same_but_favorites (sample_world []) (sample_world [dev_favorite])
  ∧ (switch_profile plain_paths (sample_world []) "dev").1
    = (switch_profile plain_paths (sample_world [dev_favorite]) "dev").1
  ∧ environ (switch_profile plain_paths (sample_world []) "dev").2
    = environ (switch_profile plain_paths (sample_world [dev_favorite]) "dev").2.
Proof.
  assert (same_but_favorites (sample_world []) (sample_world [dev_favorite]))
    as Hsame by (by repeat split).
  split; [exact Hsame|].
  destruct (favorites_do_not_interfere plain_paths posix_dirname _ _ Hsame) as (_ & Hswitch & _).
  destruct (Hswitch "dev") as (_ & Hregion & Henv & _).
  split; [exact Hregion | exact Henv].
Defined.

(** ** Adding a profile, and a missing credentials file *)

Section Stores.

Variable expandvars : gmap string string → string → string.
Variable dirname : string → string.

Implicit Types (w : World) (a : Answers) (cp : ConfigParser).

(** C5: asking the menu script to add a profile under a name that is
    already a section of the credentials store is turned down as
    "already exists", and the run leaves the state as it found it:
    credentials store, config store, environment and helper script. The
    name is one a credentials file can hold, so not the empty string,
    which the prompt turns down on its own account. *)
Theorem add_existing_profile_rejected w a
    (n access_key secret_key region : string) (switch : bool) :
  choice a = Add n access_key secret_key region switch →
  exists_path w (credentials_path_of expandvars w) = true →
  n ∈ sections (read w (credentials_path_of expandvars w)) →
  n ≠ "" →
  (∀ cp, add_profile dirname w (read w (credentials_path_of expandvars w)) cp
           (credentials_path_of expandvars w) (config_path_of expandvars w)
           (default_region_of w) n access_key secret_key region switch
         = (Ok (AlreadyExists n), w))
  ∧ ∃ current current_region listing,
      manage_aws_profiles expandvars dirname w a
      = (Ok (Menu current current_region listing (AlreadyExists n)), w).
Proof.
  intros Ha Hex Hn Hne.
  apply has_section_sections in Hn.
  assert (∀ cp, add_profile dirname w (read w (credentials_path_of expandvars w)) cp
                  (credentials_path_of expandvars w) (config_path_of expandvars w)
                  (default_region_of w) n access_key secret_key region switch
                = (Ok (AlreadyExists n), w)) as Hadd.
  { intros cp. unfold add_profile. by rewrite decide_False, Hn. }
  split; [done|].
  destruct (manage_with_credentials expandvars dirname w a Hex) as (reg & _ & ->).
  rewrite Ha, Hadd. simpl. eauto.
Qed.

(** C7, amended: when the credentials path names no file, the tray's
    [get_aws_profiles] returns normally, with the empty profile list,
    the profile ["default"], the configured default region and the
    favorites; the menu script reports the file as not found, lists
    nothing, and leaves the state untouched unless the user asks for a
    new credentials file. That request writes the file, and nothing else,
    when the path has a directory part; when it has none, [os.makedirs]
    raises and nothing is written. *)
Theorem missing_credentials_file w :
  exists_path w (credentials_path_of expandvars w) = false →
  get_aws_profiles expandvars w
  = Ok ([], "default", default_region_of w, favorites (aws_config_of w))
  ∧ ∀ a,
      (create_new a = false →
       manage_aws_profiles expandvars dirname w a
       = (Ok (CredentialsNotFound (credentials_path_of expandvars w) false), w))
      ∧ (create_new a = true →
         manage_aws_profiles expandvars dirname w a
         = if decide (dirname (credentials_path_of expandvars w) = "")
           then (Raise (FileNotFoundError ""), w)
           else (Ok (CredentialsNotFound (credentials_path_of expandvars w) true),
                 write_file w (credentials_path_of expandvars w)
                   new_credentials_file))
      ∧ ∀ current shown listing action,
          (manage_aws_profiles expandvars dirname w a).1
          ≠ Ok (Menu current shown listing action).
Proof.
  intros Hex. split.
  - unfold get_aws_profiles. by rewrite Hex.
  - intros a. rewrite (manage_without_credentials _ _ _ _ Hex).
    unfold makedirs.
    split_and!.
    + by intros ->.
    + intros ->. case_decide as Hd; [by rewrite Hd | done].
    + intros current shown listing action.
      destruct (create_new a); [case_decide|]; done.
Qed.

End Stores.

(** C7, as stated, fails: on a machine without a credentials file the
    tray's listing comes back as an ordinary result holding no profile. *)
Lemma missing_credentials_listed_empty :
  exists_path bare_world (credentials_path_of plain_paths bare_world) = false
  ∧ get_aws_profiles plain_paths bare_world
    = Ok ([], "default", "us-east-1", []).
Proof. by vm_compute. Qed.

Lemma add_existing_profile_rejected_witness :
  let w := sample_world [] in
  let a := {| create_new := false;
              choice := Add "dev" "AKIAEXAMPLE" "secret" "eu-west-1" true |} in
  "dev" ∈ sections (read w (credentials_path_of plain_paths w))
  ∧ ∃ current current_region listing,
      manage_aws_profiles plain_paths posix_dirname w a
      = (Ok (Menu current current_region listing (AlreadyExists "dev")), w).
Proof.
  intros w a.
  assert ("dev" ∈ sections (read w (credentials_path_of plain_paths w))) as Hin.
  { apply has_section_sections. reflexivity. }
  split; [exact Hin|].
  apply (add_existing_profile_rejected plain_paths posix_dirname w a
           "dev" "AKIAEXAMPLE" "secret" "eu-west-1" true);
    [reflexivity | reflexivity | exact Hin | discriminate].
Defined.

Lemma missing_credentials_file_witness :
  get_aws_profiles plain_paths unprovisioned_world
  = Ok ([], "default", "eu-north-1", [])
  ∧ manage_aws_profiles plain_paths posix_dirname unprovisioned_world
      {| create_new := false; choice := Number 1 |}
    = (Ok (CredentialsNotFound "aws/credentials" false), unprovisioned_world)
  ∧ manage_aws_profiles plain_paths posix_dirname unprovisioned_world
      {| create_new := true; choice := Number 1 |}
    = (Ok (CredentialsNotFound "aws/credentials" true),
       write_file unprovisioned_world "aws/credentials" new_credentials_file).
Proof.
  pose proof (missing_credentials_file plain_paths posix_dirname
                unprovisioned_world ltac:(reflexivity)) as [Htray Hmenu].
  split; [exact Htray|]. split.
  - exact (proj1 (Hmenu {| create_new := false; choice := Number 1 |}) eq_refl).
  - exact (proj1 (proj2 (Hmenu {| create_new := true; choice := Number 1 |}))
             eq_refl).
Defined.

(** ** Updating a parser: sections added and options set *)

Section ParserUpdates.

Implicit Types (cp : ConfigParser) (l : list (string * gmap string string)).

Lemma lookup_section_app l (name section : string) (opts : gmap string string) :
  lookup_section (l ++ [(name, opts)]) section
  = match lookup_section l section with
    | Some o => Some o
    | None => if decide (name = section) then Some opts else None
    end.
Proof.
  induction l as [|[name' opts'] rest IH]; simpl; [done|].
  by destruct (decide (name' = section)).
Qed.

Lemma lookup_section_set_in l (section option value section' : string) :
  lookup_section (set_in l section option value) section'
  = if decide (section' = section)
    then <[option := value]> <$> lookup_section l section
    else lookup_section l section'.
Proof.
  induction l as [|[name opts] rest IH]; simpl.
  - by case_decide.
  - destruct (decide (name = section)) as [->|Hne]; simpl.
    + repeat case_decide; by simplify_eq.
    + rewrite IH. repeat case_decide; by simplify_eq.
Qed.

Lemma set_in_names l (section option value : string) :
  (set_in l section option value).*1 = l.*1.
Proof.
  induction l as [|[name opts] rest IH]; simpl; [done|].
  destruct (decide (name = section)); simpl; [done | f_equal; apply IH].
Qed.

Lemma set_in_app_fresh l (section option value : string) (opts : gmap string string) :
  lookup_section l section = None →
  set_in (l ++ [(section, opts)]) section option value
  = (l ++ [(section, <[option := value]> opts)])%list.
Proof.
  induction l as [|[name opts'] rest IH]; simpl.
  - intros _. by rewrite decide_True.
  - destruct (decide (name = section)); [done|].
    intros H. by rewrite IH.
Qed.

Lemma has_section_lookup cp (section : string) :
  has_section cp section = false ↔ lookup_section (_sections cp) section = None.
Proof.
  unfold has_section. rewrite bool_decide_eq_false, <- eq_None_not_Some. done.
Qed.

(** [set] on an ordinary section that exists. *)
Lemma set_ordinary cp (section option value : string) :
  section ≠ "" → section ≠ default_section →
  has_section cp section = true →
  set cp section option value
  = Ok {| _defaults := _defaults cp;
          _sections := set_in (_sections cp) section option value |}.
Proof.
  intros H1 H2 Hs. unfold set.
  rewrite bool_decide_eq_false_2 by (intros [?|?]; done). by rewrite Hs.
Qed.

Lemma has_section_appended cp (section : string) (opts : gmap string string) :
  has_section {| _defaults := _defaults cp;
                 _sections := _sections cp ++ [(section, opts)] |} section
  = true.
Proof.
  unfold has_section; simpl. apply bool_decide_eq_true.
  rewrite lookup_section_app.
  destruct (lookup_section (_sections cp) section); [eauto|].
  rewrite decide_True by done. eauto.
Qed.

Lemma add_credentials_fresh (credentials : ConfigParser)
    (new_profile access_key secret_key : string) :
  new_profile ≠ "" → new_profile ≠ default_section →
  has_section credentials new_profile = false →
  add_credentials credentials new_profile access_key secret_key
  = Ok (with_credentials credentials new_profile access_key secret_key).
Proof.
  intros Hne Hnd Hfresh. pose proof Hfresh as Hnone.
  apply has_section_lookup in Hnone.
  unfold add_credentials, add_section.
  rewrite decide_False, Hfresh by done. simpl.
  rewrite set_ordinary by auto using has_section_appended. simpl.
  rewrite set_in_app_fresh by done.
  rewrite set_ordinary by auto using has_section_appended. simpl.
  by rewrite set_in_app_fresh.
Qed.

(** The only way the credentials update raises: the reserved name. *)
Lemma add_credentials_reserved (credentials : ConfigParser)
    (access_key secret_key : string) :
  add_credentials credentials default_section access_key secret_key
  = Raise (ValueError "Invalid section name: 'DEFAULT'").
Proof. done. Qed.

(** The config update never raises; it sets the region of the profile's
    section, creating the section at the end when it is not there, and
    touches nothing else. *)
Lemma add_region_ok (config_parser : ConfigParser) (new_profile region : string) :
  ∃ updated,
    add_region config_parser new_profile region = Ok updated
    ∧ _defaults updated = _defaults config_parser
    ∧ lookup_section (_sections updated) ("profile " +:+ new_profile)
      = Some (<["region" := region]>
                (default ∅ (lookup_section (_sections config_parser)
                              ("profile " +:+ new_profile))))
    ∧ (∀ section, section ≠ "profile " +:+ new_profile →
         lookup_section (_sections updated) section
         = lookup_section (_sections config_parser) section)
    ∧ sections updated
      = if has_section config_parser ("profile " +:+ new_profile)
        then sections config_parser
        else (sections config_parser ++ ["profile " +:+ new_profile])%list.
Proof.
  destruct (profile_section_ordinary new_profile) as [H1 H2].
  set (section := "profile " +:+ new_profile) in *.
  unfold add_region. fold section.
  destruct (has_section config_parser section) eqn:Hs; simpl.
  - rewrite set_ordinary by done. eexists; split; [done|]. simpl.
    apply has_section_sections, lookup_section_elem_of in Hs as [opts Hopts].
    split_and!; [done | | |].
    + rewrite lookup_section_set_in, decide_True, Hopts by done. done.
    + intros s Hne. by rewrite lookup_section_set_in, decide_False.
    + unfold sections; simpl. apply set_in_names.
  - pose proof Hs as Hnone. apply has_section_lookup in Hnone.
    unfold add_section. rewrite decide_False, Hs by done. simpl.
    rewrite set_ordinary by auto using has_section_appended.
    eexists; split; [done|]. simpl.
    rewrite set_in_app_fresh by done.
    split_and!; [done | | |].
    + rewrite lookup_section_app, Hnone, decide_True by done. done.
    + intros s Hne. rewrite lookup_section_app.
      destruct (lookup_section (_sections config_parser) s); [done|].
      by rewrite decide_False.
    + unfold sections; simpl. by rewrite fmap_app.
Qed.

End ParserUpdates.

(** ** Adding a profile through the menu *)

Section Adding.

Variable expandvars : gmap string string → string → string.
Variable dirname : string → string.

Implicit Types (w : World) (a : Answers) (cp : ConfigParser).

(** The add branch for a fresh, ordinary name: the credentials store is
    written first; the config store follows, and the switch when asked
    for, unless the config path has no directory part, in which case
    [os.makedirs] raises between the two writes. *)
Lemma add_profile_fresh w (credentials config_parser : ConfigParser)
    (credentials_path config_path default_region : string)
    (n access_key secret_key region : string) (switch : bool) :
  n ≠ "" → n ≠ default_section → has_section credentials n = false →
  let entered := if decide (region = "") then default_region else region in
  ∃ updated,
    add_region config_parser n entered = Ok updated
    ∧ add_profile dirname w credentials config_parser credentials_path config_path
        default_region n access_key secret_key region switch
      = if decide (dirname config_path = "") then
          (Raise (FileNotFoundError ""),
           write_file w credentials_path
             (with_credentials credentials n access_key secret_key))
        else
          (Ok (Added n (if switch then Some entered else None)),
           let w2 := write_file
                       (write_file w credentials_path
                          (with_credentials credentials n access_key secret_key))
                       config_path updated in
           if switch then apply_switch w2 n entered else w2).
Proof.
  intros Hne Hnd Hfresh entered.
  destruct (add_region_ok config_parser n entered) as (updated & Hok & _).
  exists updated. split; [done|].
  unfold add_profile. rewrite decide_False, Hfresh by done.
  rewrite add_credentials_fresh by done.
  fold entered. rewrite Hok. unfold makedirs.
  case_decide as Hd; [by rewrite Hd | by destruct switch].
Qed.

(** The same, seen from a whole run of the script. *)
Lemma manage_add_fresh w a (n access_key secret_key region : string)
    (switch : bool) :
  choice a = Add n access_key secret_key region switch →
  exists_path w (credentials_path_of expandvars w) = true →
  n ≠ "" → n ≠ default_section →
  n ∉ sections (read w (credentials_path_of expandvars w)) →
  dirname (config_path_of expandvars w) ≠ "" →
  let entered := if decide (region = "") then default_region_of w else region in
  ∃ current shown listing updated,
    add_region (read_if_exists w (config_path_of expandvars w)) n entered
    = Ok updated
    ∧ manage_aws_profiles expandvars dirname w a
      = (Ok (Menu current shown listing
               (Added n (if switch then Some entered else None))),
         let w2 := write_file
                     (write_file w (credentials_path_of expandvars w)
                        (with_credentials
                           (read w (credentials_path_of expandvars w))
                           n access_key secret_key))
                     (config_path_of expandvars w) updated in
         if switch then apply_switch w2 n entered else w2).
Proof.
  intros Ha Hex Hne Hnd Hfresh Hdir entered.
  assert (has_section (read w (credentials_path_of expandvars w)) n = false)
    as Hs.
  { destruct (has_section _ n) eqn:E; [|done].
    by apply has_section_sections in E. }
  destruct (manage_with_credentials expandvars dirname w a Hex) as (shown & _ & ->).
  rewrite Ha.
  destruct (add_profile_fresh w (read w (credentials_path_of expandvars w))
              (read_if_exists w (config_path_of expandvars w))
              (credentials_path_of expandvars w) (config_path_of expandvars w)
              (default_region_of w) n access_key secret_key region switch
              Hne Hnd Hs) as (updated & Hok & ->).
  rewrite decide_False by done. simpl. eauto 10.
Qed.

(** The files a run leaves when it added a profile. *)
Lemma files_after_add w (credentials_path config_path n entered : string)
    (credentials updated : ConfigParser) (switch : bool) :
  files (let w2 := write_file (write_file w credentials_path credentials)
                     config_path updated in
         if switch then apply_switch w2 n entered else w2)
  = <[config_path := updated]> (<[credentials_path := credentials]> (files w)).
Proof. by destruct switch. Qed.

Lemma read_written (m : gmap string ConfigParser) w (path : string) cp :
  files w = <[path := cp]> m →
  read w path = cp ∧ read_if_exists w path = cp.
Proof.
  intros Hf. unfold read_if_exists, exists_path, read.
  rewrite Hf, lookup_insert_eq. split; [done|].
  by rewrite bool_decide_eq_true_2 by eauto.
Qed.

(** The switch lookup reads one section and the defaults, nothing else. *)
Lemma selected_region_ext cp1 cp2 (default_region p : string) :
  _defaults cp1 = _defaults cp2 →
  lookup_section (_sections cp1) (section_name p)
  = lookup_section (_sections cp2) (section_name p) →
  selected_region cp1 default_region p = selected_region cp2 default_region p.
Proof.
  intros Hd Hl.
  unfold selected_region, has_section, get_fallback, unify_values.
  by rewrite Hd, Hl.
Qed.

Lemma profile_section_inj (p q : string) :
  "profile " +:+ p = "profile " +:+ q → p = q.
Proof. simpl. intros H. by simplify_eq. Qed.

Lemma section_name_other (p n : string) :
  p ≠ n ∨ p = "default" → section_name p ≠ "profile " +:+ n.
Proof.
  unfold section_name. intros H. case_decide as Hp.
  - simpl. discriminate.
  - destruct H as [H|H]; [|done].
    intros E. by apply profile_section_inj in E.
Qed.

(** A section that declares a region answers every kind of lookup with
    it. *)
Lemma region_declared cp (section region fallback : string)
    (opts : gmap string string) :
  section ≠ "" → section ≠ default_section →
  lookup_section (_sections cp) section = Some opts →
  opts !! "region" = Some region →
  has_section cp section = true
  ∧ has_option cp section "region" = true
  ∧ get cp section "region" = Ok region
  ∧ get_fallback cp section "region" fallback = region.
Proof.
  intros H1 H2 Hl Hr.
  assert ((opts ∪ _defaults cp) !! "region" = Some region) as Hu
    by (by apply lookup_union_Some_l).
  assert (bool_decide (section = "" ∨ section = default_section) = false)
    as Hord by (apply bool_decide_eq_false; intros [?|?]; done).
  unfold has_section, has_option, get, get_fallback, unify_values.
  rewrite Hord, Hl, Hu, Hr. simpl.
  split_and!; done.
Qed.

(** A run that reports an added profile: what was asked, and the state
    it leaves. *)
Lemma manage_added_inv w a (n access_key secret_key region : string)
    (switch : bool) (current shown m : string) (listing : list ProfileLine)
    (switched : option string) w' :
  choice a = Add n access_key secret_key region switch →
  manage_aws_profiles expandvars dirname w a
  = (Ok (Menu current shown listing (Added m switched)), w') →
  let entered := if decide (region = "") then default_region_of w else region in
  n ≠ "" ∧ n ≠ default_section
  ∧ dirname (config_path_of expandvars w) ≠ ""
  ∧ lookup_section (_sections (read w (credentials_path_of expandvars w))) n
    = None
  ∧ m = n
  ∧ switched = (if switch then Some entered else None)
  ∧ ∃ updated,
      add_region (read_if_exists w (config_path_of expandvars w)) n entered
      = Ok updated
      ∧ w' = (let w2 := write_file
                          (write_file w (credentials_path_of expandvars w)
                             (with_credentials
                                (read w (credentials_path_of expandvars w))
                                n access_key secret_key))
                          (config_path_of expandvars w) updated in
              if switch then apply_switch w2 n entered else w2).
Proof.
  intros Ha Hrun entered.
  destruct (exists_path w (credentials_path_of expandvars w)) eqn:Hex.
  2:{ rewrite (manage_without_credentials _ _ _ _ Hex) in Hrun.
      destruct (create_new a); [destruct (makedirs _)|]; done. }
  destruct (decide (n = "")) as [->|Hne].
  { destruct (manage_with_credentials expandvars dirname w a Hex) as (reg & _ & Hm).
    rewrite Hm, Ha in Hrun. by simpl in Hrun. }
  destruct (has_section (read w (credentials_path_of expandvars w)) n) eqn:Hs.
  { destruct (manage_with_credentials expandvars dirname w a Hex) as (reg & _ & Hm).
    rewrite Hm, Ha in Hrun. unfold add_profile in Hrun.
    rewrite decide_False, Hs in Hrun by done. by simpl in Hrun. }
  destruct (decide (n = default_section)) as [->|Hnd].
  { destruct (manage_with_credentials expandvars dirname w a Hex) as (reg & _ & Hm).
    rewrite Hm, Ha in Hrun. unfold add_profile in Hrun.
    rewrite decide_False, Hs, add_credentials_reserved in Hrun by done.
    by simpl in Hrun. }
  assert (n ∉ sections (read w (credentials_path_of expandvars w))) as Hfresh.
  { intros Hin. apply has_section_sections in Hin. congruence. }
  destruct (decide (dirname (config_path_of expandvars w) = "")) as [Hd|Hdir].
  { destruct (manage_with_credentials expandvars dirname w a Hex) as (reg & _ & Hm).
    rewrite Hm, Ha in Hrun.
    destruct (add_profile_fresh w (read w (credentials_path_of expandvars w))
                (read_if_exists w (config_path_of expandvars w))
                (credentials_path_of expandvars w) (config_path_of expandvars w)
                (default_region_of w) n access_key secret_key region switch
                Hne Hnd Hs) as (updated & _ & E).
    rewrite E, decide_True in Hrun by done. by simpl in Hrun. }
  destruct (manage_add_fresh w a n access_key secret_key region switch
              Ha Hex Hne Hnd Hfresh Hdir)
    as (current' & shown' & listing' & updated & Hok & Hrun').
  rewrite Hrun' in Hrun. injection Hrun as _ _ _ <- <- <-.
  split_and!; try done; [by apply has_section_lookup | eauto].
Qed.

(** X1: a profile the menu reports as added is the last one in the
    listing of the credentials store afterwards, behind the profiles that
    were there, and holds the two keys that were typed in. The two stores
    are separate files. *)
Theorem added_profile_is_listed w a (n access_key secret_key region : string)
    (switch : bool) (current shown : string) (listing : list ProfileLine)
    (switched : option string) w' :
  choice a = Add n access_key secret_key region switch →
  manage_aws_profiles expandvars dirname w a
  = (Ok (Menu current shown listing (Added n switched)), w') →
  credentials_path_of expandvars w ≠ config_path_of expandvars w →
  let stored := read w' (credentials_path_of expandvars w) in
  profiles stored
  = (profiles (read w (credentials_path_of expandvars w)) ++ [n])%list
  ∧ get stored n "aws_access_key_id" = Ok access_key
  ∧ get stored n "aws_secret_access_key" = Ok secret_key.
Proof.
  intros Ha Hrun Hpaths stored.
  destruct (manage_added_inv _ _ _ _ _ _ _ _ _ _ _ _ _ Ha Hrun)
    as (Hne & Hnd & _ & Hnone & _ & _ & updated & _ & Hw').
  assert (stored = with_credentials (read w (credentials_path_of expandvars w))
                     n access_key secret_key) as ->.
  { unfold stored. rewrite Hw'. unfold read at 1.
    rewrite files_after_add, lookup_insert_ne, lookup_insert_eq by done. done. }
  split_and!.
  - rewrite !profiles_sections. unfold sections, with_credentials; simpl.
    by rewrite fmap_app.
  - unfold get, unify_values, with_credentials; simpl.
    rewrite lookup_section_app, Hnone, decide_True by done.
    erewrite lookup_union_Some_l; [done|].
    by rewrite lookup_insert_ne, lookup_insert_eq.
  - unfold get, unify_values, with_credentials; simpl.
    rewrite lookup_section_app, Hnone, decide_True by done.
    erewrite lookup_union_Some_l; [done|].
    by rewrite lookup_insert_eq.
Qed.

(** X2: the region typed in for a profile that was added (the configured
    default region when the answer is left empty) is what is resolved for
    it afterwards: by the switch lookup for every name but ["default"],
    and by the resolution block for every name once [AWS_PROFILE] is that
    name and no region variable is set. *)
Theorem added_region_is_resolved w a (n access_key secret_key region : string)
    (switch : bool) (current shown : string) (listing : list ProfileLine)
    (switched : option string) w' :
  choice a = Add n access_key secret_key region switch →
  manage_aws_profiles expandvars dirname w a
  = (Ok (Menu current shown listing (Added n switched)), w') →
  let config_parser := read_if_exists w' (config_path_of expandvars w) in
  let entered := if decide (region = "") then default_region_of w else region in
  (n ≠ "default" →
   ∀ fallback, selected_region config_parser fallback n = entered)
  ∧ ∀ (env : gmap string string) (fallback : string),
      env !! "AWS_PROFILE" = Some n →
      env !! "AWS_REGION" = None →
      env !! "AWS_DEFAULT_REGION" = None →
      current_region env config_parser fallback = Ok entered.
Proof.
  intros Ha Hrun config_parser entered.
  destruct (manage_added_inv _ _ _ _ _ _ _ _ _ _ _ _ _ Ha Hrun)
    as (Hne & Hnd & _ & Hnone & _ & _ & updated & Hok & Hw').
  destruct (add_region_ok (read_if_exists w (config_path_of expandvars w))
              n entered) as (updated' & Hok' & _ & Hsec & _).
  fold entered in Hok. rewrite Hok in Hok'. injection Hok' as <-.
  assert (config_parser = updated) as ->.
  { unfold config_parser. rewrite Hw'.
    eapply read_written, files_after_add. }
  destruct (profile_section_ordinary n) as [H1 H2].
  assert (∀ fallback,
            has_section updated ("profile " +:+ n) = true
            ∧ has_option updated ("profile " +:+ n) "region" = true
            ∧ get updated ("profile " +:+ n) "region" = Ok entered
            ∧ get_fallback updated ("profile " +:+ n) "region" fallback = entered)
    as Hdecl.
  { intros fallback. eapply region_declared; [done | done | exact Hsec |].
    apply lookup_insert_eq. }
  split.
  - intros Hdef fallback. destruct (Hdecl fallback) as (Hs & _ & _ & Hg).
    unfold selected_region, section_name. rewrite decide_False by done.
    by rewrite Hs.
  - intros env fallback Hp Hr Hd. destruct (Hdecl fallback) as (Hs & Ho & Hg & _).
    unfold current_region.
    rewrite Hr, Hd, (current_profile_set _ _ Hp), Hs, Ho. done.
Qed.

(** X3: a profile added under the name ["default"] has its region
    stored in a section [profile default]; the switch lookup reads
    [default], so what it answers for that profile is what it answered
    before the profile was added. *)
Theorem default_region_entry_unread w a (access_key secret_key region : string)
    (switch : bool) (current shown : string) (listing : list ProfileLine)
    (switched : option string) w' :
  choice a = Add "default" access_key secret_key region switch →
  manage_aws_profiles expandvars dirname w a
  = (Ok (Menu current shown listing (Added "default" switched)), w') →
  ∀ fallback,
    selected_region (read_if_exists w' (config_path_of expandvars w))
      fallback "default"
    = selected_region (read_if_exists w (config_path_of expandvars w))
        fallback "default".
Proof.
  intros Ha Hrun fallback.
  destruct (manage_added_inv _ _ _ _ _ _ _ _ _ _ _ _ _ Ha Hrun)
    as (_ & _ & _ & _ & _ & _ & updated & Hok & Hw').
  destruct (add_region_ok (read_if_exists w (config_path_of expandvars w))
              "default"
              (if decide (region = "") then default_region_of w else region))
    as (updated' & Hok' & Hdef & _ & Hother & _).
  rewrite Hok in Hok'. injection Hok' as <-.
  assert (read_if_exists w' (config_path_of expandvars w) = updated) as ->.
  { rewrite Hw'. eapply read_written, files_after_add. }
  apply selected_region_ext; [done|].
  apply Hother, section_name_other. by right.
Qed.

(** X4: the name [DEFAULT] is reserved by the parser; asking the menu to
    add a profile under it raises [ValueError], before anything is
    written. *)
Theorem reserved_name_raises w a (access_key secret_key region : string)
    (switch : bool) :
  choice a = Add default_section access_key secret_key region switch →
  exists_path w (credentials_path_of expandvars w) = true →
  default_section ∉ sections (read w (credentials_path_of expandvars w)) →
  manage_aws_profiles expandvars dirname w a
  = (Raise (ValueError "Invalid section name: 'DEFAULT'"), w).
Proof.
  intros Ha Hex Hfresh.
  destruct (manage_with_credentials expandvars dirname w a Hex) as (shown & _ & ->).
  rewrite Ha. unfold add_profile.
  rewrite decide_False by done.
  destruct (has_section _ default_section) eqn:Hs.
  { by apply has_section_sections in Hs. }
  by rewrite add_credentials_reserved.
Qed.

(** X5: adding a profile leaves every other profile as it was: the other
    sections of the credentials store keep their options, and the switch
    lookup answers as before for every other name. *)
Theorem add_keeps_other_profiles w a (n access_key secret_key region : string)
    (switch : bool) (current shown : string) (listing : list ProfileLine)
    (switched : option string) w' :
  choice a = Add n access_key secret_key region switch →
  manage_aws_profiles expandvars dirname w a
  = (Ok (Menu current shown listing (Added n switched)), w') →
  credentials_path_of expandvars w ≠ config_path_of expandvars w →
  ∀ p : string,
    p ≠ n →
    lookup_section (_sections (read w' (credentials_path_of expandvars w))) p
    = lookup_section (_sections (read w (credentials_path_of expandvars w))) p
    ∧ ∀ fallback,
        selected_region (read_if_exists w' (config_path_of expandvars w))
          fallback p
        = selected_region (read_if_exists w (config_path_of expandvars w))
            fallback p.
Proof.
  intros Ha Hrun Hpaths p Hp.
  destruct (manage_added_inv _ _ _ _ _ _ _ _ _ _ _ _ _ Ha Hrun)
    as (_ & _ & _ & _ & _ & _ & updated & Hok & Hw').
  destruct (add_region_ok (read_if_exists w (config_path_of expandvars w)) n
              (if decide (region = "") then default_region_of w else region))
    as (updated' & Hok' & Hdef & _ & Hother & _).
  rewrite Hok in Hok'. injection Hok' as <-.
  split.
  - rewrite Hw'. unfold read at 1.
    rewrite files_after_add, lookup_insert_ne, lookup_insert_eq by done. simpl.
    rewrite lookup_section_app.
    destruct (lookup_section _ p); [done|]. by rewrite decide_False.
  - intros fallback.
    assert (read_if_exists w' (config_path_of expandvars w) = updated) as ->.
    { rewrite Hw'. eapply read_written, files_after_add. }
    apply selected_region_ext; [done|].
    apply Hother, section_name_other. by left.
Qed.

End Adding.

(** ** Runs of the menu script *)

Section Runs.

Variable expandvars : gmap string string → string → string.
Variable dirname : string → string.

Implicit Types (w : World) (a : Answers) (cp : ConfigParser).

(** The five ways the add branch can end. *)
Lemma add_profile_cases w (credentials config_parser : ConfigParser)
    (credentials_path config_path default_region : string)
    (n access_key secret_key region : string) (switch : bool) :
  let run := add_profile dirname w credentials config_parser credentials_path
               config_path default_region n access_key secret_key region switch in
  (n = "" ∧ run = (Ok EmptyName, w))
  ∨ (has_section credentials n = true ∧ run = (Ok (AlreadyExists n), w))
  ∨ (n = default_section
     ∧ run = (Raise (ValueError "Invalid section name: 'DEFAULT'"), w))
  ∨ (dirname config_path = ""
     ∧ ∃ w', run = (Raise (FileNotFoundError ""), w'))
  ∨ (∃ entered w', run = (Ok (Added n entered), w')).
Proof.
  intros run. unfold run.
  destruct (decide (n = "")) as [->|Hne]; [by left|].
  destruct (has_section credentials n) eqn:Hs.
  { right; left. split; [done|]. unfold add_profile.
    by rewrite decide_False, Hs. }
  destruct (decide (n = default_section)) as [->|Hnd].
  { right; right; left. split; [done|]. unfold add_profile.
    rewrite decide_False, Hs by done. by rewrite add_credentials_reserved. }
  right; right; right.
  destruct (add_profile_fresh dirname w credentials config_parser credentials_path
              config_path default_region n access_key secret_key region switch
              Hne Hnd Hs) as (updated & _ & ->).
  case_decide; [left | right]; eauto.
Qed.

(** A run that reports a switch was a numbered choice naming a listed
    profile. *)
Lemma manage_switched_inv w a (current shown p r : string)
    (listing : list ProfileLine) w' :
  manage_aws_profiles expandvars dirname w a
  = (Ok (Menu current shown listing (Switched p r)), w') →
  exists_path w (credentials_path_of expandvars w) = true
  ∧ ∃ index,
      choice a = Number (S index)
      ∧ profiles (read w (credentials_path_of expandvars w)) !! index = Some p
      ∧ r = selected_region (read_if_exists w (config_path_of expandvars w))
              (default_region_of w) p
      ∧ w' = apply_switch w p r.
Proof.
  intros Hrun.
  destruct (exists_path w (credentials_path_of expandvars w)) eqn:Hex.
  2:{ rewrite (manage_without_credentials _ _ _ _ Hex) in Hrun.
      destruct (create_new a); [destruct (makedirs _)|]; done. }
  split; [done|].
  destruct (manage_with_credentials expandvars dirname w a Hex) as (reg & _ & Hm).
  rewrite Hm in Hrun. clear Hm.
  destruct (choice a) as [|n ak sk region sw|k|]; [done| | |done].
  - exfalso.
    destruct (add_profile_cases w (read w (credentials_path_of expandvars w))
                (read_if_exists w (config_path_of expandvars w))
                (credentials_path_of expandvars w) (config_path_of expandvars w)
                (default_region_of w) n ak sk region sw)
      as [[_ E]|[[_ E]|[[_ E]|[(_ & w2 & E)|(entered & w2 & E)]]]];
      rewrite E in Hrun; simpl in Hrun; done.
  - destruct (select_profile w _ _ _ k) as [action w2] eqn:Hsel.
    injection Hrun as _ _ _ -> ->.
    apply select_profile_switched in Hsel as (index & -> & Hq & Hr & ->).
    eauto.
Qed.

Lemma profile_lines_elem (favs : list Favorite) (current : string)
    (listed : list string) (line : ProfileLine) :
  line ∈ profile_lines favs current listed →
  ∃ index, line_number line = S index
           ∧ listed !! index = Some (line_profile line).
Proof.
  unfold profile_lines. intros H.
  apply elem_of_lookup_imap in H as (i & profile & -> & Hi).
  exists i. simpl. split; [lia | done].
Qed.

Lemma profile_lines_profiles (favs : list Favorite) (current : string)
    (listed : list string) :
  line_profile <$> profile_lines favs current listed = listed.
Proof.
  unfold profile_lines. rewrite fmap_imap.
  rewrite (imap_ext _ (const id)) by done.
  by rewrite imap_const, list_fmap_id.
Qed.

(** X6: a run that ends normally changes the state only when it
    reports that it created the credentials file, added a profile or
    switched; a run that quits, rejects the choice, rejects the number,
    refuses an empty or existing name, or declines to create the file
    leaves environment, stores and helper script exactly as they were. *)
Theorem quiet_runs_change_nothing w a :
  match (manage_aws_profiles expandvars dirname w a).1 with
  | Ok (CredentialsNotFound _ true) => True
  | Ok (Menu _ _ _ (Added _ _)) => True
  | Ok (Menu _ _ _ (Switched _ _)) => True
  | Ok _ => (manage_aws_profiles expandvars dirname w a).2 = w
  | Raise _ => True
  end.
Proof.
  destruct (exists_path w (credentials_path_of expandvars w)) eqn:Hex.
  2:{ rewrite (manage_without_credentials _ _ _ _ Hex).
      destruct (create_new a); [destruct (makedirs _)|]; done. }
  destruct (manage_with_credentials expandvars dirname w a Hex) as (reg & _ & ->).
  destruct (choice a) as [|n ak sk region sw|k|]; [done| | |done].
  - destruct (add_profile_cases w (read w (credentials_path_of expandvars w))
                (read_if_exists w (config_path_of expandvars w))
                (credentials_path_of expandvars w) (config_path_of expandvars w)
                (default_region_of w) n ak sk region sw)
      as [[_ E]|[[_ E]|[[_ E]|[(_ & w2 & E)|(entered & w2 & E)]]]];
      by rewrite E.
  - unfold select_profile. destruct k as [|index]; [done|].
    by destruct (_ !! index).
Qed.

(** X7: a number that is 0 or larger than the number of listed profiles
    is answered with "invalid profile number" and changes nothing. *)
Theorem number_out_of_range w a (k : nat) :
  choice a = Number k →
  exists_path w (credentials_path_of expandvars w) = true →
  k = 0 ∨ length (sections (read w (credentials_path_of expandvars w))) < k →
  ∃ current shown listing,
    manage_aws_profiles expandvars dirname w a
    = (Ok (Menu current shown listing InvalidNumber), w).
Proof.
  intros Ha Hex Hk.
  destruct (manage_with_credentials expandvars dirname w a Hex) as (reg & _ & ->).
  rewrite Ha, profiles_sections. unfold select_profile.
  destruct k as [|index]; [eauto|].
  destruct Hk as [?|Hk]; [done|].
  rewrite (lookup_ge_None_2 _ index) by lia. eauto.
Qed.

(** What a run that got as far as the menu has shown. *)
Lemma manage_menu_inv w a (current shown : string)
    (listing : list ProfileLine) (action : Action) w' :
  manage_aws_profiles expandvars dirname w a
  = (Ok (Menu current shown listing action), w') →
  exists_path w (credentials_path_of expandvars w) = true
  ∧ current = current_profile (environ w)
  ∧ current_region (environ w)
      (read_if_exists w (config_path_of expandvars w)) (default_region_of w)
    = Ok shown
  ∧ listing = profile_lines (favorites (aws_config_of w)) current
                (profiles (read w (credentials_path_of expandvars w))).
Proof.
  intros Hrun.
  destruct (exists_path w (credentials_path_of expandvars w)) eqn:Hex.
  2:{ rewrite (manage_without_credentials _ _ _ _ Hex) in Hrun.
      destruct (create_new a); [destruct (makedirs _)|]; done. }
  destruct (manage_with_credentials expandvars dirname w a Hex) as (reg & Hreg & Hm).
  rewrite Hm in Hrun. clear Hm. rewrite Hreg.
  destruct (choice a) as [|n ak sk region sw|k|].
  - by injection Hrun as -> -> <- _ _.
  - destruct (add_profile _ _ _ _ _ _ _ _ _ _ _ _) as [[act|e] w2];
      simpl in Hrun; [|done].
    by injection Hrun as -> -> <- _ _.
  - destruct (select_profile _ _ _ _ _) as [act w2].
    by injection Hrun as -> -> <- _ _.
  - by injection Hrun as -> -> <- _ _.
Qed.

(** A run whose report is none of "added" and "switched" has changed
    nothing. *)
Lemma manage_quiet_unchanged w a (current shown : string)
    (listing : list ProfileLine) (action : Action) w' :
  manage_aws_profiles expandvars dirname w a
  = (Ok (Menu current shown listing action), w') →
  (∀ p r, action ≠ Switched p r) →
  (∀ p r, action ≠ Added p r) →
  w' = w.
Proof.
  intros Hrun Hsw Hadd.
  pose proof (manage_menu_inv _ _ _ _ _ _ _ Hrun) as (Hex & _).
  destruct (manage_with_credentials expandvars dirname w a Hex) as (reg & _ & Hm).
  rewrite Hm in Hrun. clear Hm.
  destruct (choice a) as [|n ak sk region sw|k|].
  - by injection Hrun as _ _ _ _ <-.
  - destruct (add_profile_cases w (read w (credentials_path_of expandvars w))
                (read_if_exists w (config_path_of expandvars w))
                (credentials_path_of expandvars w) (config_path_of expandvars w)
                (default_region_of w) n ak sk region sw)
      as [[_ E]|[[_ E]|[[_ E]|[(_ & w2 & E)|(entered & w2 & E)]]]];
      rewrite E in Hrun; simpl in Hrun; try done.
    + by injection Hrun as _ _ _ _ <-.
    + by injection Hrun as _ _ _ _ <-.
    + injection Hrun as _ _ _ <- _. by edestruct Hadd.
  - unfold select_profile in Hrun. destruct k as [|index].
    + by injection Hrun as _ _ _ _ <-.
    + destruct (_ !! index) as [q|].
      * injection Hrun as _ _ _ <- _. by edestruct Hsw.
      * by injection Hrun as _ _ _ _ <-.
  - by injection Hrun as _ _ _ _ <-.
Qed.

(** A run that reports an added profile was asked to add it. *)
Lemma manage_added_choice w a (current shown m : string)
    (listing : list ProfileLine) (switched : option string) w' :
  manage_aws_profiles expandvars dirname w a
  = (Ok (Menu current shown listing (Added m switched)), w') →
  ∃ n access_key secret_key region switch,
    choice a = Add n access_key secret_key region switch.
Proof.
  intros Hrun.
  pose proof (manage_menu_inv _ _ _ _ _ _ _ Hrun) as (Hex & _).
  destruct (manage_with_credentials expandvars dirname w a Hex) as (reg & _ & Hm).
  rewrite Hm in Hrun. clear Hm.
  destruct (choice a) as [|n ak sk region sw|k|]; [done|eauto 10| |done].
  unfold select_profile in Hrun. destruct k as [|index]; [done|].
  by destruct (_ !! index).
Qed.

(** X8: the menu sets [AWS_PROFILE] only to a profile that is a section
    of the credentials store when the run ends. A run that reports a
    switch by number had the profile listed, resolved its region with the
    switch lookup and left the stores alone; a run that reports an added
    profile with the switch accepted has written that profile to the
    store (the two stores being separate files) and uses the region that
    was typed; both write the helper script for the pair they set. Every
    other run that gets to the menu and ends normally leaves environment
    and helper script as they were. *)
Theorem menu_switches_stored_only w a (current shown : string)
    (listing : list ProfileLine) (action : Action) w' :
  manage_aws_profiles expandvars dirname w a
  = (Ok (Menu current shown listing action), w') →
  (∀ p r, action = Switched p r →
     p ∈ sections (read w (credentials_path_of expandvars w))
     ∧ r = selected_region (read_if_exists w (config_path_of expandvars w))
             (default_region_of w) p
     ∧ environ w'
       = <["AWS_DEFAULT_REGION" := r]> (<["AWS_PROFILE" := p]> (environ w))
     ∧ batch w' = Some (menu_batch_lines p r)
     ∧ files w' = files w)
  ∧ (∀ p r, action = Added p (Some r) →
       credentials_path_of expandvars w ≠ config_path_of expandvars w →
       p ∈ sections (read w' (credentials_path_of expandvars w))
       ∧ environ w'
         = <["AWS_DEFAULT_REGION" := r]> (<["AWS_PROFILE" := p]> (environ w))
       ∧ batch w' = Some (menu_batch_lines p r))
  ∧ ((∀ p r, action ≠ Switched p r) → (∀ p r, action ≠ Added p (Some r)) →
     environ w' = environ w ∧ batch w' = batch w).
Proof.
  intros Hrun. split_and!.
  - intros p r ->.
    apply manage_switched_inv in Hrun as (_ & index & _ & Hp & Hr & ->).
    rewrite profiles_sections in Hp.
    split_and!; try done.
    apply list_elem_of_lookup. eauto.
  - intros p r -> Hpaths.
    destruct (manage_added_choice _ _ _ _ _ _ _ _ Hrun)
      as (n & ak & sk & region & switch & Ha).
    destruct (manage_added_inv _ _ _ _ _ _ _ _ _ _ _ _ _ _ _ Ha Hrun)
      as (_ & _ & _ & _ & <- & Hsw & updated & _ & ->).
    destruct switch; [|done]. injection Hsw as ->.
    split_and!; try done.
    apply has_section_sections. unfold read. simpl.
    rewrite lookup_insert_ne, lookup_insert_eq by done. simpl.
    apply has_section_appended.
  - intros Hsw Hadd.
    destruct action as [| |n|n switched|p r| |];
      try (by rewrite (manage_quiet_unchanged _ _ _ _ _ _ _ Hrun)).
    destruct switched as [r|]; [by destruct (Hadd n r)|].
    destruct (manage_added_choice _ _ _ _ _ _ _ _ Hrun)
      as (n' & ak & sk & region & switch & Ha).
    destruct (manage_added_inv _ _ _ _ _ _ _ _ _ _ _ _ _ _ _ Ha Hrun)
      as (_ & _ & _ & _ & _ & Hsw' & updated & _ & ->).
    by destruct switch.
Qed.

(** X10: the number printed next to a profile selects that profile: in
    a run that is answered with a number, any line of the printed list
    carrying that number names the profile the run switches to. *)
Theorem number_selects_listed_profile w a (k : nat) :
  choice a = Number k →
  exists_path w (credentials_path_of expandvars w) = true →
  ∃ current shown listing action w',
    manage_aws_profiles expandvars dirname w a
    = (Ok (Menu current shown listing action), w')
    ∧ ∀ line,
        line ∈ listing → line_number line = k →
        action
        = Switched (line_profile line)
            (selected_region (read_if_exists w (config_path_of expandvars w))
               (default_region_of w) (line_profile line))
        ∧ environ w' !! "AWS_PROFILE" = Some (line_profile line).
Proof.
  intros Ha Hex.
  destruct (manage_with_credentials expandvars dirname w a Hex) as (reg & _ & ->).
  rewrite Ha.
  destruct (select_profile w _ _ _ k) as [action w'] eqn:Hsel.
  do 5 eexists. split; [done|].
  intros line Hline Hk.
  apply profile_lines_elem in Hline as (index & Hn & Hp).
  rewrite Hk in Hn. subst k.
  unfold select_profile in Hsel. rewrite Hp in Hsel.
  injection Hsel as <- <-. split; [done|].
  rewrite apply_switch_environ. by repeat case_decide.
Qed.

(** X9: a credentials file the script reports as created is found by
    the next run, which lists one profile, ["default"], holding the
    placeholder keys; no other file is touched by the creation. *)
Theorem created_file_lists_default w a (path : string) w' :
  manage_aws_profiles expandvars dirname w a
  = (Ok (CredentialsNotFound path true), w') →
  (∀ a2, choice a2 = Quit →
     ∃ shown listing,
       manage_aws_profiles expandvars dirname w' a2
       = (Ok (Menu (current_profile (environ w)) shown listing QuitMenu), w')
       ∧ line_profile <$> listing = ["default"])
  ∧ path = credentials_path_of expandvars w
  ∧ get (read w' path) "default" "aws_access_key_id" = Ok "YOUR_ACCESS_KEY"
  ∧ get (read w' path) "default" "aws_secret_access_key" = Ok "YOUR_SECRET_KEY"
  ∧ ∀ other, other ≠ path → files w' !! other = files w !! other.
Proof.
  intros Hrun.
  destruct (exists_path w (credentials_path_of expandvars w)) eqn:Hex.
  2:{ rewrite (manage_without_credentials _ _ _ _ Hex) in Hrun.
      destruct (create_new a); [|done].
      destruct (makedirs _); [|done].
      injection Hrun as <- <-.
      set (w' := write_file w _ _).
      assert (credentials_path_of expandvars w' = credentials_path_of expandvars w)
        as Hpath by done.
      assert (read w' (credentials_path_of expandvars w) = new_credentials_file)
        as Hread.
      { unfold read, w'; simpl. by rewrite lookup_insert_eq. }
      split_and!.
      - intros a2 Ha2.
        assert (exists_path w' (credentials_path_of expandvars w') = true) as Hex'.
        { rewrite Hpath. unfold exists_path, w'; simpl.
          rewrite lookup_insert_eq. by apply bool_decide_eq_true. }
        destruct (manage_with_credentials expandvars dirname w' a2 Hex')
          as (reg & _ & ->).
        rewrite Ha2, Hpath, Hread. do 2 eexists. split; [done|].
        by rewrite profile_lines_profiles.
      - done.
      - by rewrite Hread.
      - by rewrite Hread.
      - intros other Hne. unfold w'; simpl. by rewrite lookup_insert_ne. }
  destruct (manage_with_credentials expandvars dirname w a Hex) as (reg & _ & Hm).
  rewrite Hm in Hrun. exfalso.
  destruct (choice a) as [|n ak sk region sw|k|]; [done| | |done].
  - by destruct (add_profile _ _ _ _ _ _ _ _ _ _ _ _) as [[act|e] w2].
  - by destruct (select_profile _ _ _ _ _).
Qed.


(** X12: once a profile has been added, asking to add the same name
    again is turned down as "already exists" and changes nothing, whatever
    keys and region are typed the second time. *)
Theorem add_twice_rejected w a (n access_key secret_key region : string)
    (switch : bool) (current shown : string) (listing : list ProfileLine)
    (switched : option string) w' :
  choice a = Add n access_key secret_key region switch →
  manage_aws_profiles expandvars dirname w a
  = (Ok (Menu current shown listing (Added n switched)), w') →
  credentials_path_of expandvars w ≠ config_path_of expandvars w →
  credentials_path_of expandvars w' = credentials_path_of expandvars w →
  ∀ a2 access_key2 secret_key2 region2 switch2,
    choice a2 = Add n access_key2 secret_key2 region2 switch2 →
    ∃ current2 shown2 listing2,
      manage_aws_profiles expandvars dirname w' a2
      = (Ok (Menu current2 shown2 listing2 (AlreadyExists n)), w').
Proof.
  intros Ha Hrun Hpaths Hcred a2 ak2 sk2 r2 sw2 Ha2.
  destruct (manage_added_inv _ _ _ _ _ _ _ _ _ _ _ _ _ _ _ Ha Hrun)
    as (Hne & Hnd & _ & _ & _ & _ & updated & _ & Hw').
  assert (files w' !! credentials_path_of expandvars w
          = Some (with_credentials (read w (credentials_path_of expandvars w))
                    n access_key secret_key)) as Hfile.
  { rewrite Hw'.
    by rewrite files_after_add, lookup_insert_ne, lookup_insert_eq. }
  clear Hw'.
  assert (exists_path w' (credentials_path_of expandvars w') = true) as Hex'.
  { rewrite Hcred. unfold exists_path. rewrite Hfile.
    by apply bool_decide_eq_true. }
  destruct (manage_with_credentials expandvars dirname w' a2 Hex') as (reg & _ & ->).
  rewrite Ha2, Hcred. unfold add_profile. rewrite decide_False by done.
  assert (has_section (read w' (credentials_path_of expandvars w)) n = true)
    as ->.
  { unfold read. rewrite Hfile. simpl. apply has_section_appended. }
  simpl. eauto.
Qed.

(** X13: a profile that is added becomes the active one only when the
    user says so: with the switch accepted, the run reports the region it
    switched to, [AWS_PROFILE] and [AWS_DEFAULT_REGION] hold the new name
    and that region, and the helper script is written for them; with the
    switch declined, environment and helper script stay as they were. *)
Theorem add_switches_on_request w a (n access_key secret_key region : string)
    (switch : bool) (current shown : string) (listing : list ProfileLine)
    (switched : option string) w' :
  choice a = Add n access_key secret_key region switch →
  manage_aws_profiles expandvars dirname w a
  = (Ok (Menu current shown listing (Added n switched)), w') →
  let entered := if decide (region = "") then default_region_of w else region in
  if switch then
    switched = Some entered
    ∧ environ w'
      = <["AWS_DEFAULT_REGION" := entered]> (<["AWS_PROFILE" := n]> (environ w))
    ∧ batch w' = Some (menu_batch_lines n entered)
  else switched = None ∧ environ w' = environ w ∧ batch w' = batch w.
Proof.
  intros Ha Hrun entered.
  destruct (manage_added_inv _ _ _ _ _ _ _ _ _ _ _ _ _ _ _ Ha Hrun)
    as (_ & _ & _ & _ & _ & Hsw & updated & _ & Hw').
  rewrite Hw', Hsw. by destruct switch.
Qed.

(** The config update on a store that does not exist yet. *)
Lemma add_region_empty (n region : string) :
  add_region configparser.empty n region
  = Ok {| _defaults := ∅;
          _sections := [("profile " +:+ n, {["region" := region]})] |}.
Proof.
  destruct (profile_section_ordinary n) as [H1 H2].
  unfold add_region.
  change (has_section configparser.empty ("profile " +:+ n)) with false.
  cbn [negb]. unfold add_section.
  rewrite decide_False by done.
  change (has_section configparser.empty ("profile " +:+ n)) with false.
  cbn [mbind result_bind configparser.bind].
  rewrite set_ordinary; [|done|done|apply (has_section_appended configparser.empty)].
  cbn [_sections _defaults configparser.empty app set_in].
  rewrite decide_True by done. by rewrite insert_empty.
Qed.

(** X14: the region a run shows for the current profile is the region a
    switch to that profile would set, for every profile but ["default"],
    when no region variable is set. *)
Theorem shown_region_is_switch_region w a (current shown : string)
    (listing : list ProfileLine) (action : Action) w' :
  manage_aws_profiles expandvars dirname w a
  = (Ok (Menu current shown listing action), w') →
  environ w !! "AWS_REGION" = None →
  environ w !! "AWS_DEFAULT_REGION" = None →
  current ≠ "default" →
  shown = selected_region (read_if_exists w (config_path_of expandvars w))
            (default_region_of w) current.
Proof.
  intros Hrun Hr Hd Hcur.
  apply manage_menu_inv in Hrun as (_ & -> & Hshown & _).
  destruct (environ w !! "AWS_PROFILE") as [foo|] eqn:Hp.
  - rewrite (current_profile_set _ _ Hp) in *.
    rewrite (current_region_named_profile _ _ _ _ Hp Hr Hd Hcur) in Hshown.
    by injection Hshown.
  - by rewrite (current_profile_unset _ Hp) in Hcur.
Qed.

(** X15: whatever is chosen afterwards, the list a run prints is the
    credentials store's sections in file order, numbered from 1 without
    gaps; the lines marked active are exactly those naming the current
    profile, so none is marked when [AWS_PROFILE] names a profile the
    store does not hold. *)
Theorem listing_is_store w a (current shown : string)
    (listing : list ProfileLine) (action : Action) w' :
  manage_aws_profiles expandvars dirname w a
  = (Ok (Menu current shown listing action), w') →
  current = current_profile (environ w)
  ∧ line_profile <$> listing
    = sections (read w (credentials_path_of expandvars w))
  ∧ line_number <$> listing = seq 1 (length listing)
  ∧ (∀ line, line ∈ listing →
       (line_active line = true ↔ line_profile line = current))
  ∧ (current ∉ sections (read w (credentials_path_of expandvars w)) →
     ∀ line, line ∈ listing → line_active line = false).
Proof.
  intros Hrun.
  apply manage_menu_inv in Hrun as (_ & Hcur & _ & ->).
  assert (∀ line,
            line ∈ profile_lines (favorites (aws_config_of w)) current
                     (profiles (read w (credentials_path_of expandvars w))) →
            line_profile line
              ∈ sections (read w (credentials_path_of expandvars w))
            ∧ line_active line = bool_decide (line_profile line = current))
    as Hlines.
  { intros line Hline. unfold profile_lines in Hline.
    apply elem_of_lookup_imap in Hline as (i & profile & -> & Hi). simpl.
    split; [|done]. rewrite profiles_sections in Hi.
    apply list_elem_of_lookup. eauto. }
  split_and!.
  - done.
  - by rewrite profile_lines_profiles, profiles_sections.
  - unfold profile_lines. rewrite fmap_imap, length_imap.
    rewrite (imap_ext _ (λ i _, S i)) by (intros; simpl; lia).
    by rewrite imap_seq_0, fmap_S_seq.
  - intros line Hline. destruct (Hlines line Hline) as [_ ->].
    apply bool_decide_eq_true.
  - intros Habsent line Hline. destruct (Hlines line Hline) as [Hin ->].
    apply bool_decide_eq_false. by intros <-.
Qed.

(** X16: when there is no config store yet, adding a profile creates
    it, holding the one section [profile <name>] with the region that was
    entered. *)
Theorem add_creates_config_store w a (n access_key secret_key region : string)
    (switch : bool) (current shown : string) (listing : list ProfileLine)
    (switched : option string) w' :
  choice a = Add n access_key secret_key region switch →
  manage_aws_profiles expandvars dirname w a
  = (Ok (Menu current shown listing (Added n switched)), w') →
  exists_path w (config_path_of expandvars w) = false →
  let entered := if decide (region = "") then default_region_of w else region in
  files w' !! config_path_of expandvars w
  = Some {| _defaults := ∅;
            _sections := [("profile " +:+ n, {["region" := entered]})] |}.
Proof.
  intros Ha Hrun Hcfg entered.
  destruct (manage_added_inv _ _ _ _ _ _ _ _ _ _ _ _ _ _ _ Ha Hrun)
    as (_ & _ & _ & _ & _ & _ & updated & Hok & Hw').
  rewrite Hw', files_after_add, lookup_insert_eq.
  f_equal. fold entered in Hok.
  unfold read_if_exists in Hok. rewrite Hcfg, add_region_empty in Hok.
  by injection Hok as <-.
Qed.

End Runs.

(** ** The properties above at sample states *)

Ltac by_evaluation := apply (bool_decide_unpack _); vm_compute; exact I.

Lemma added_profile_is_listed_witness :
  let w := sample_world [] in
  let a := {| create_new := false;
              choice := Add "qa" "AKIAQA" "s3cr3t" "eu-west-2" false |} in
  profiles (read (manage_aws_profiles plain_paths posix_dirname w a).2 "aws/credentials")
  = ["dev"; "default"; "qa"]
  ∧ get (read (manage_aws_profiles plain_paths posix_dirname w a).2 "aws/credentials")
      "qa" "aws_access_key_id" = Ok "AKIAQA".
Proof.
  intros w a.
  destruct (added_profile_is_listed plain_paths posix_dirname w a "qa" "AKIAQA" "s3cr3t"
              "eu-west-2" false "default" "eu-north-1"
              (profile_lines [] "default" ["dev"; "default"]) None
              (manage_aws_profiles plain_paths posix_dirname w a).2
              ltac:(reflexivity) ltac:(by vm_compute) ltac:(discriminate))
    as (H1 & H2 & _).
  split; [exact H1 | exact H2].
Defined.

Lemma added_region_is_resolved_witness :
  let w := sample_world [] in
  let a := {| create_new := false;
              choice := Add "qa" "AKIAQA" "s3cr3t" "" true |} in
  selected_region
    (read_if_exists (manage_aws_profiles plain_paths posix_dirname w a).2 "aws/config")
    "us-east-1" "qa" = "eu-north-1"
  ∧ current_region {["AWS_PROFILE" := "qa"]}
      (read_if_exists (manage_aws_profiles plain_paths posix_dirname w a).2 "aws/config")
      "us-east-1" = Ok "eu-north-1".
Proof.
  intros w a.
  destruct (added_region_is_resolved plain_paths posix_dirname w a "qa" "AKIAQA" "s3cr3t"
              "" true "default" "eu-north-1"
              (profile_lines [] "default" ["dev"; "default"]) (Some "eu-north-1")
              (manage_aws_profiles plain_paths posix_dirname w a).2
              ltac:(reflexivity) ltac:(by vm_compute)) as (H1 & H2).
  split.
  - apply H1. discriminate.
  - apply H2; reflexivity.
Defined.

Lemma default_region_entry_unread_witness :
  let w := named_only_world in
  let a := {| create_new := false;
              choice := Add "default" "AKIADEF" "s3cr3t" "ap-south-1" false |} in
  selected_region
    (read_if_exists (manage_aws_profiles plain_paths posix_dirname w a).2 "aws/config")
    "eu-north-1" "default" = "eu-west-1".
Proof.
  intros w a.
  apply (default_region_entry_unread plain_paths posix_dirname w a "AKIADEF" "s3cr3t"
           "ap-south-1" false "default" "eu-north-1"
           (profile_lines [] "default" ["dev"]) None
           (manage_aws_profiles plain_paths posix_dirname w a).2);
    [reflexivity | by vm_compute].
Defined.

Lemma reserved_name_raises_witness :
  manage_aws_profiles plain_paths posix_dirname (sample_world [])
    {| create_new := false; choice := Add "DEFAULT" "AKIAX" "s3cr3t" "" false |}
  = (Raise (ValueError "Invalid section name: 'DEFAULT'"), sample_world []).
Proof.
  apply (reserved_name_raises plain_paths posix_dirname (sample_world []) _
           "AKIAX" "s3cr3t" "" false);
    [reflexivity | reflexivity | by_evaluation].
Defined.

Lemma add_keeps_other_profiles_witness :
  let w := sample_world [] in
  let a := {| create_new := false;
              choice := Add "qa" "AKIAQA" "s3cr3t" "eu-west-2" true |} in
  selected_region
    (read_if_exists (manage_aws_profiles plain_paths posix_dirname w a).2 "aws/config")
    "eu-north-1" "dev" = "ap-south-1".
Proof.
  intros w a.
  destruct (add_keeps_other_profiles plain_paths posix_dirname w a "qa" "AKIAQA" "s3cr3t"
              "eu-west-2" true "default" "eu-north-1"
              (profile_lines [] "default" ["dev"; "default"]) (Some "eu-west-2")
              (manage_aws_profiles plain_paths posix_dirname w a).2
              ltac:(reflexivity) ltac:(by vm_compute) ltac:(discriminate)
              "dev" ltac:(discriminate)) as [_ H].
  exact (H "eu-north-1").
Defined.

Lemma number_out_of_range_witness :
  ∃ current shown listing,
    manage_aws_profiles plain_paths posix_dirname (sample_world [])
      {| create_new := false; choice := Number 3 |}
    = (Ok (Menu current shown listing InvalidNumber), sample_world []).
Proof.
  apply (number_out_of_range plain_paths posix_dirname (sample_world []) _ 3);
    [reflexivity | reflexivity | right; vm_compute; lia].
Defined.

Lemma menu_switches_stored_only_witness :
  let w := sample_world [] in
  let a := {| create_new := false;
              choice := Add "qa" "AKIAQA" "s3cr3t" "eu-west-2" true |} in
  "qa" ∈ sections (read (manage_aws_profiles plain_paths posix_dirname w a).2
                     "aws/credentials")
  ∧ environ (manage_aws_profiles plain_paths posix_dirname w a).2
    = <["AWS_DEFAULT_REGION" := "eu-west-2"]>
        (<["AWS_PROFILE" := "qa"]> (environ w)).
Proof.
  intros w a.
  destruct (menu_switches_stored_only plain_paths posix_dirname w a
              "default" "eu-north-1"
              (profile_lines [] "default" ["dev"; "default"])
              (Added "qa" (Some "eu-west-2"))
              (manage_aws_profiles plain_paths posix_dirname w a).2
              ltac:(by vm_compute)) as (_ & Hadded & _).
  destruct (Hadded "qa" "eu-west-2" eq_refl ltac:(discriminate))
    as (H1 & H2 & _).
  split; [exact H1 | exact H2].
Defined.

Lemma created_file_lists_default_witness :
  let a := {| create_new := true; choice := Quit |} in
  let w' :=
    (manage_aws_profiles plain_paths posix_dirname unprovisioned_world a).2 in
  ∃ shown listing,
    manage_aws_profiles plain_paths posix_dirname w' a
    = (Ok (Menu "default" shown listing QuitMenu), w')
    ∧ line_profile <$> listing = ["default"].
Proof.
  intros a w'.
  destruct (created_file_lists_default plain_paths posix_dirname
              unprovisioned_world a "aws/credentials" w' ltac:(by vm_compute))
    as (H & _).
  exact (H a eq_refl).
Defined.

Lemma number_selects_listed_profile_witness :
  environ
    (manage_aws_profiles plain_paths posix_dirname (sample_world [dev_favorite])
       {| create_new := false; choice := Number 1 |}).2
  !! "AWS_PROFILE" = Some "dev".
Proof.
  set (w := sample_world [dev_favorite]).
  set (a := {| create_new := false; choice := Number 1 |}).
  destruct (number_selects_listed_profile plain_paths posix_dirname w a 1
              ltac:(reflexivity) ltac:(reflexivity))
    as (current & shown & listing & action & w' & Hrun & Hlines).
  assert (manage_aws_profiles plain_paths posix_dirname w a
          = (Ok (Menu "default" "eu-north-1"
                   (profile_lines [dev_favorite] "default" ["dev"; "default"])
                   (Switched "dev" "ap-south-1")),
             (manage_aws_profiles plain_paths posix_dirname w a).2)) as Hrun'
    by (by vm_compute).
  rewrite Hrun' in Hrun. injection Hrun as <- <- <- <- <-.
  destruct (Hlines {| line_number := 1; line_profile := "dev";
                      line_favorite := true; line_active := false |}
              ltac:(by left) ltac:(reflexivity)) as [_ Henv].
  exact Henv.
Defined.


Lemma add_twice_rejected_witness :
  let w := sample_world [] in
  let a := {| create_new := false;
              choice := Add "qa" "AKIAQA" "s3cr3t" "eu-west-2" true |} in
  let w' := (manage_aws_profiles plain_paths posix_dirname w a).2 in
  ∃ current shown listing,
    manage_aws_profiles plain_paths posix_dirname w'
      {| create_new := false; choice := Add "qa" "AKIAOTHER" "other" "" false |}
    = (Ok (Menu current shown listing (AlreadyExists "qa")), w').
Proof.
  intros w a w'.
  apply (add_twice_rejected plain_paths posix_dirname w a "qa" "AKIAQA" "s3cr3t" "eu-west-2"
           true "default" "eu-north-1"
           (profile_lines [] "default" ["dev"; "default"]) (Some "eu-west-2") w'
           ltac:(reflexivity) ltac:(by vm_compute) ltac:(discriminate)
           ltac:(reflexivity) _ "AKIAOTHER" "other" "" false).
  reflexivity.
Defined.

Lemma add_switches_on_request_witness :
  let w := sample_world [] in
  let a := {| create_new := false;
              choice := Add "qa" "AKIAQA" "s3cr3t" "eu-west-2" true |} in
  batch (manage_aws_profiles plain_paths posix_dirname w a).2
  = Some (menu_batch_lines "qa" "eu-west-2").
Proof.
  intros w a.
  destruct (add_switches_on_request plain_paths posix_dirname w a "qa" "AKIAQA" "s3cr3t"
              "eu-west-2" true "default" "eu-north-1"
              (profile_lines [] "default" ["dev"; "default"]) (Some "eu-west-2")
              (manage_aws_profiles plain_paths posix_dirname w a).2
              ltac:(reflexivity) ltac:(by vm_compute)) as (_ & _ & H).
  exact H.
Defined.

Lemma shown_region_is_switch_region_witness :
  let w := credentials_only_world in
  let a := {| create_new := false; choice := Other |} in
  "eu-north-1"
  = selected_region (read_if_exists w (config_path_of plain_paths w))
      (default_region_of w) "staging".
Proof.
  intros w a.
  apply (shown_region_is_switch_region plain_paths posix_dirname w a "staging" "eu-north-1"
           (profile_lines [] "staging" ["dev"; "default"]) InvalidOption w);
    [by vm_compute | reflexivity | reflexivity | discriminate].
Defined.

Lemma listing_is_store_witness :
  line_profile <$> profile_lines [] "staging" ["dev"; "default"]
  = sections (read credentials_only_world
                (credentials_path_of plain_paths credentials_only_world))
  ∧ line_number <$> profile_lines [] "staging" ["dev"; "default"]
    = seq 1 (length (profile_lines [] "staging" ["dev"; "default"])).
Proof.
  destruct (listing_is_store plain_paths posix_dirname credentials_only_world
              {| create_new := false; choice := Other |}
              "staging" "eu-north-1"
              (profile_lines [] "staging" ["dev"; "default"]) InvalidOption
              credentials_only_world ltac:(by vm_compute))
    as (_ & H1 & H2 & _).
  split; [exact H1 | exact H2].
Defined.

Lemma add_creates_config_store_witness :
  let w := credentials_only_world in
  let a := {| create_new := false;
              choice := Add "qa" "AKIAQA" "s3cr3t" "" false |} in
  files (manage_aws_profiles plain_paths posix_dirname w a).2 !! "aws/config"
  = Some {| _defaults := ∅;
            _sections := [("profile qa", {["region" := "eu-north-1"]})] |}.
Proof.
  intros w a.
  apply (add_creates_config_store plain_paths posix_dirname w a "qa" "AKIAQA" "s3cr3t" "" false
           "staging" "eu-north-1"
           (profile_lines [] "staging" ["dev"; "default"]) None
           (manage_aws_profiles plain_paths posix_dirname w a).2);
    [reflexivity | by vm_compute | reflexivity].
Defined.
